(** * transform-module.js: the per-file transform stage of the packager

    A shallow embedding of
    [packager/src/ModuleGraph/worker/transform-module.js] and the properties
    of its three paths (asset, JSON, source code).

    JavaScript strings are modelled as [string], a [Buffer] as [list byte],
    a plain JavaScript object as an association list read in the order
    [Object.keys] reports, exceptions and callback invocations as an
    explicit trace-and-completion monad. *)

From Stdlib Require Import List String Ascii Bool Arith NArith ZArith Lia.
From Stdlib Require Import Strings.Byte.
From Stdlib Require Import Permutation Sorted.
Import ListNotations.

Local Open Scope string_scope.
Local Open Scope list_scope.

Set Implicit Arguments.
Set Warnings "-register-all".

(** String concatenation, the [+] of JavaScript on strings. *)
Infix "+++" := String.append (right associativity, at level 60).

(* ------------------------------------------------------------------ *)
(** ** Strings *)

Module Str.

(** [String.prototype.endsWith]. *)
Definition endsWith (s suffix : string) : bool :=
  let n := String.length s in
  let m := String.length suffix in
  if Nat.leb m n then String.eqb (substring (n - m) m s) suffix else false.

(** [Array.prototype.join] on an array of strings. *)
Fixpoint join (sep : string) (l : list string) : string :=
  match l with
  | [] => ""
  | [x] => x
  | x :: rest => x +++ sep +++ join sep rest
  end.

Definition slash : ascii := "/"%char.

(** Characters of a path after its last separator; [acc] collects the
    segment being read. *)
Fixpoint last_segment (s acc : string) : string :=
  match s with
  | EmptyString => acc
  | String c rest =>
      if Ascii.eqb c slash then
        match rest with
        | EmptyString => acc            (* a trailing separator is ignored *)
        | _ => last_segment rest ""
        end
      else last_segment rest (acc +++ String c "")
  end.

(** [path.basename] (posix) for a path with at most one trailing
    separator. *)
Definition basename (path : string) : string := last_segment path "".

End Str.

(* ------------------------------------------------------------------ *)
(** ** Plain objects *)

(** An object used as a map from names to values: its own properties, as
    a list of entries in the order of creation.  [Object.keys] does not
    report them in that order but array-index keys first, ascending, then
    the remaining keys in the order of creation.  The name [__proto__]
    can be an own key, as in an object read by [JSON.parse], but an
    assignment under that name stores no property (it sets the prototype):
    [define] and [set] tell the two ways of writing apart. *)
Definition jsobj (V : Type) : Type := list (string * V).

Module Obj.

Section Objects.
Variable V : Type.

(** Property read [o[k]] of an own property, or of a name other than
    [__proto__]; [None] is [undefined]. *)
Fixpoint get (o : jsobj V) (k : string) : option V :=
  match o with
  | [] => None
  | (k', v) :: rest => if String.eqb k' k then Some v else get rest k
  end.

(** Definition of the own property [k], as [JSON.parse] does for a
    member of an object: an existing property keeps its place. *)
Fixpoint define (o : jsobj V) (k : string) (v : V) : jsobj V :=
  match o with
  | [] => [(k, v)]
  | (k', v') :: rest =>
      if String.eqb k' k then (k', v) :: rest else (k', v') :: define rest k v
  end.

(** Property write [o[k] = v] on an object created by [{}].  Under the
    name [__proto__] the assignment reaches the setter of
    [Object.prototype]: it changes the prototype of the object (or is
    ignored) and stores no own property. *)
Definition set (o : jsobj V) (k : string) (v : V) : jsobj V :=
  if String.eqb k "__proto__" then o else define o k v.

Definition has (o : jsobj V) (k : string) : bool :=
  match get o k with Some _ => true | None => false end.

End Objects.

(** Value of a decimal digit. *)
Definition digit (c : ascii) : option N :=
  let n := N_of_ascii c in
  if (48 <=? n)%N && (n <=? 57)%N then Some (n - 48)%N else None.

Fixpoint digits (s : string) (acc : N) : option N :=
  match s with
  | EmptyString => Some acc
  | String c rest =>
      match digit c with
      | Some d => digits rest (10 * acc + d)%N
      | None => None
      end
  end.

(** The array index a key denotes, if any: a canonical decimal numeral
    below 2^32 - 1. *)
Definition array_index (k : string) : option N :=
  match k with
  | EmptyString => None
  | String c rest =>
      match digit c with
      | None => None
      | Some d =>
          if (d =? 0)%N then
            match rest with EmptyString => Some 0%N | _ => None end
          else
            match digits rest d with
            | Some n => if (n <? 4294967295)%N then Some n else None
            | None => None
            end
      end
  end.

(** Insertion of a key with its index into a list sorted by index. *)
Fixpoint insert_index (x : N * string) (l : list (N * string))
  : list (N * string) :=
  match l with
  | [] => [x]
  | y :: rest =>
      if (fst x <=? fst y)%N then x :: y :: rest
      else y :: insert_index x rest
  end.

Definition sort_index (l : list (N * string)) : list (N * string) :=
  fold_right insert_index [] l.

(** The keys that are array indices, with the index. *)
Fixpoint index_keys (ks : list string) : list (N * string) :=
  match ks with
  | [] => []
  | k :: rest =>
      match array_index k with
      | Some n => (n, k) :: index_keys rest
      | None => index_keys rest
      end
  end.

Definition is_index (k : string) : bool :=
  match array_index k with Some _ => true | None => false end.

Definition name_keys (ks : list string) : list string :=
  filter (fun k => negb (is_index k)) ks.

(** Own property keys in the order of [Object.keys]. *)
Definition order_keys (ks : list string) : list string :=
  map snd (sort_index (index_keys ks)) ++ name_keys ks.

Definition keys {V} (o : jsobj V) : list string :=
  order_keys (map fst o).

(** [Object.entries]. *)
Definition entries {V} (o : jsobj V) : list (string * V) :=
  flat_map (fun k => match get o k with
                     | Some v => [(k, v)]
                     | None => []
                     end) (keys o).

(** An association list that is an object whose properties can all be
    copied by assignment: no key occurs twice, and no key is
    [__proto__]. *)
Definition wf {V} (o : jsobj V) : Prop :=
  NoDup (map fst o) /\ ~ In "__proto__" (map fst o).

(** The keys under which an assignment stores a property. *)
Definition stored (ks : list string) : list string :=
  filter (fun k => negb (String.eqb k "__proto__")) ks.

Definition le_index (x y : N * string) : Prop := (fst x <= fst y)%N.

(** A pair of [index_keys] holds a key and the index it denotes. *)
Definition keyed (p : N * string) : Prop := array_index (snd p) = Some (fst p).

End Obj.

(* ------------------------------------------------------------------ *)
(** ** JSON values and [JSON.parse] *)

(** Plain data: what [JSON.parse] returns, and the shape of configuration
    objects and source maps.  A number keeps its lexeme. *)
Inductive json : Type :=
| JNull
| JBool (b : bool)
| JNumber (lexeme : string)
| JString (s : string)
| JArray (items : list json)
| JObject (props : jsobj json).

(** An error object. *)
Record Error : Type := mkError { error_name : string; message : string }.

Definition SyntaxError (msg : string) : Error := mkError "SyntaxError" msg.
Definition TypeError (msg : string) : Error := mkError "TypeError" msg.

Module Json.

Definition is_ws (c : ascii) : bool :=
  let n := N_of_ascii c in
  (n =? 32)%N || (n =? 9)%N || (n =? 10)%N || (n =? 13)%N.

Fixpoint skip_ws (s : string) : string :=
  match s with
  | String c rest => if is_ws c then skip_ws rest else s
  | EmptyString => s
  end.

Fixpoint strip_prefix (p s : string) : option string :=
  match p, s with
  | EmptyString, _ => Some s
  | String a p', String b s' => if Ascii.eqb a b then strip_prefix p' s' else None
  | String _ _, EmptyString => None
  end.

Definition is_digit (c : ascii) : bool :=
  match Obj.digit c with Some _ => true | None => false end.

(** The longest prefix of digits, and what follows it. *)
Fixpoint span_digits (s : string) : string * string :=
  match s with
  | String c rest =>
      if is_digit c then
        let (d, r) := span_digits rest in (String c d, r)
      else (EmptyString, s)
  | EmptyString => (EmptyString, EmptyString)
  end.

Definition hex (c : ascii) : option N :=
  let n := N_of_ascii c in
  if (48 <=? n)%N && (n <=? 57)%N then Some (n - 48)%N
  else if (65 <=? n)%N && (n <=? 70)%N then Some (n - 55)%N
  else if (97 <=? n)%N && (n <=? 102)%N then Some (n - 87)%N
  else None.

Definition hex4 (a b c d : ascii) : option N :=
  match hex a, hex b, hex c, hex d with
  | Some x, Some y, Some z, Some w => Some (4096 * x + 256 * y + 16 * z + w)%N
  | _, _, _, _ => None
  end.

Definition chr (n : N) : string := String (ascii_of_N n) EmptyString.

(** A string holds the UTF-8 bytes of its text: an escaped code unit is
    written out in that form. *)
Definition code_unit (n : N) : string :=
  if (n <? 128)%N then chr n
  else if (n <? 2048)%N then chr (192 + n / 64) +++ chr (128 + n mod 64)
  else chr (224 + n / 4096) +++ chr (128 + (n / 64) mod 64)
       +++ chr (128 + n mod 64).

Definition simple_escape (c : ascii) : option ascii :=
  let n := N_of_ascii c in
  if (n =? 34)%N then Some (ascii_of_N 34)          (* quote *)
  else if (n =? 92)%N then Some (ascii_of_N 92)     (* backslash *)
  else if (n =? 47)%N then Some (ascii_of_N 47)     (* slash *)
  else if (n =? 98)%N then Some (ascii_of_N 8)      (* b *)
  else if (n =? 102)%N then Some (ascii_of_N 12)    (* f *)
  else if (n =? 110)%N then Some (ascii_of_N 10)    (* n *)
  else if (n =? 114)%N then Some (ascii_of_N 13)    (* r *)
  else if (n =? 116)%N then Some (ascii_of_N 9)     (* t *)
  else None.

(** The characters of a string literal after its opening quote. *)
Fixpoint string_body (s acc : string) : option (string * string) :=
  match s with
  | EmptyString => None
  | String c rest =>
      let n := N_of_ascii c in
      if (n =? 34)%N then Some (acc, rest)
      else if (n =? 92)%N then
        match rest with
        | EmptyString => None
        | String e rest1 =>
            match simple_escape e with
            | Some ch => string_body rest1 (acc +++ String ch EmptyString)
            | None =>
                if (N_of_ascii e =? 117)%N then
                  match rest1 with
                  | String h1 (String h2 (String h3 (String h4 rest2))) =>
                      match hex4 h1 h2 h3 h4 with
                      | Some u => string_body rest2 (acc +++ code_unit u)
                      | None => None
                      end
                  | _ => None
                  end
                else None
            end
        end
      else if (n <? 32)%N then None
      else string_body rest (acc +++ String c EmptyString)
  end.

Definition minus_sign : ascii := "-"%char.
Definition plus_sign : ascii := "+"%char.

(** A number: an optional minus sign, an integer part without a leading
    zero, an optional fraction, an optional exponent. *)
Definition number (s : string) : option (string * string) :=
  let (sign, s1) :=
    match s with
    | String c r => if Ascii.eqb c minus_sign then ("-", r) else ("", s)
    | EmptyString => ("", s)
    end in
  let (int, s2) := span_digits s1 in
  let int_ok :=
    match int with
    | EmptyString => false
    | String c EmptyString => true
    | String c _ => negb (Ascii.eqb c "0"%char)
    end in
  if negb int_ok then None else
  let frac :=
    match s2 with
    | String c r =>
        if Ascii.eqb c "."%char then
          let (d, r') := span_digits r in
          match d with
          | EmptyString => None
          | _ => Some ("." +++ d, r')
          end
        else Some ("", s2)
    | EmptyString => Some ("", s2)
    end in
  match frac with
  | None => None
  | Some (fr, s3) =>
      let exp :=
        match s3 with
        | String c r =>
            if Ascii.eqb c "e"%char || Ascii.eqb c "E"%char then
              let (sg, r1) :=
                match r with
                | String c' r' =>
                    if Ascii.eqb c' minus_sign || Ascii.eqb c' plus_sign
                    then (String c' "", r') else ("", r)
                | EmptyString => ("", r)
                end in
              let (d, r2) := span_digits r1 in
              match d with
              | EmptyString => None
              | _ => Some (String c "" +++ sg +++ d, r2)
              end
            else Some ("", s3)
        | EmptyString => Some ("", s3)
        end in
      match exp with
      | None => None
      | Some (ex, s4) => Some (sign +++ int +++ fr +++ ex, s4)
      end
  end.

(** Recursive descent; [fuel] bounds the nesting of calls. *)
Fixpoint value (fuel : nat) (s : string) : option (json * string) :=
  match fuel with
  | O => None
  | S fuel' =>
      match skip_ws s with
      | EmptyString => None
      | String c rest as s' =>
          let n := N_of_ascii c in
          if (n =? 34)%N then
            match string_body rest "" with
            | Some (str, r) => Some (JString str, r)
            | None => None
            end
          else if (n =? 91)%N then                       (* [ *)
            match skip_ws rest with
            | String c' r' =>
                if (N_of_ascii c' =? 93)%N then Some (JArray [], r')
                else match elements fuel' rest [] with
                     | Some (l, r) => Some (JArray l, r)
                     | None => None
                     end
            | EmptyString => None
            end
          else if (n =? 123)%N then                      (* { *)
            match skip_ws rest with
            | String c' r' =>
                if (N_of_ascii c' =? 125)%N then Some (JObject [], r')
                else match members fuel' rest [] with
                     | Some (o, r) => Some (JObject o, r)
                     | None => None
                     end
            | EmptyString => None
            end
          else
            match strip_prefix "null" s' with
            | Some r => Some (JNull, r)
            | None =>
            match strip_prefix "true" s' with
            | Some r => Some (JBool true, r)
            | None =>
            match strip_prefix "false" s' with
            | Some r => Some (JBool false, r)
            | None =>
            match number s' with
            | Some (lex, r) => Some (JNumber lex, r)
            | None => None
            end end end end
      end
  end
with elements (fuel : nat) (s : string) (acc : list json)
  : option (list json * string) :=
  match fuel with
  | O => None
  | S fuel' =>
      match value fuel' s with
      | None => None
      | Some (v, r) =>
          match skip_ws r with
          | String c r' =>
              if (N_of_ascii c =? 44)%N then elements fuel' r' (acc ++ [v])
              else if (N_of_ascii c =? 93)%N then Some (acc ++ [v], r')
              else None
          | EmptyString => None
          end
      end
  end
with members (fuel : nat) (s : string) (acc : jsobj json)
  : option (jsobj json * string) :=
  match fuel with
  | O => None
  | S fuel' =>
      match skip_ws s with
      | String q r0 =>
          if negb (N_of_ascii q =? 34)%N then None else
          match string_body r0 "" with
          | None => None
          | Some (key, r1) =>
              match skip_ws r1 with
              | String colon r2 =>
                  if negb (N_of_ascii colon =? 58)%N then None else
                  match value fuel' r2 with
                  | None => None
                  | Some (v, r3) =>
                      match skip_ws r3 with
                      | String c r4 =>
                          if (N_of_ascii c =? 44)%N
                          then members fuel' r4 (Obj.define acc key v)
                          else if (N_of_ascii c =? 125)%N
                          then Some (Obj.define acc key v, r4)
                          else None
                      | EmptyString => None
                      end
                  end
              | EmptyString => None
              end
          end
      | EmptyString => None
      end
  end.

(** [JSON.parse]: the parsed value, or the [SyntaxError] it throws. *)
Definition parse (text : string) : Error + json :=
  match value (2 * String.length text + 2) text with
  | Some (v, r) =>
      match skip_ws r with
      | EmptyString => inr v
      | String _ _ => inl (SyntaxError "Unexpected token in JSON")
      end
  | None => inl (SyntaxError "Unexpected token in JSON")
  end.

End Json.


(* ------------------------------------------------------------------ *)
(** ** Buffers and base64 *)

Definition Buffer : Type := list byte.

Module Base64.

(** The character of a six-bit value in the standard alphabet. *)
Definition encode_sextet (n : N) : ascii :=
  if (n <? 26)%N then ascii_of_N (n + 65)             (* A-Z *)
  else if (n <? 52)%N then ascii_of_N (n + 71)        (* a-z *)
  else if (n <? 62)%N then ascii_of_N (n - 4)         (* 0-9 *)
  else if (n =? 62)%N then ascii_of_N 43              (* + *)
  else ascii_of_N 47.                                 (* / *)

Definition decode_sextet (c : ascii) : option N :=
  let n := N_of_ascii c in
  if (65 <=? n)%N && (n <=? 90)%N then Some (n - 65)%N
  else if (97 <=? n)%N && (n <=? 122)%N then Some (n - 71)%N
  else if (48 <=? n)%N && (n <=? 57)%N then Some (n + 4)%N
  else if (n =? 43)%N then Some 62%N
  else if (n =? 47)%N then Some 63%N
  else None.

Definition pad : ascii := ascii_of_N 61.

Definition str4 (a b c d : ascii) (rest : string) : string :=
  String a (String b (String c (String d rest))).

(** [Buffer.prototype.toString('base64')]: three bytes give four
    characters; a last group of one or two bytes is padded. *)
Fixpoint encode (bs : Buffer) : string :=
  match bs with
  | [] => EmptyString
  | [x] =>
      let a := Byte.to_N x in
      str4 (encode_sextet (a / 4)) (encode_sextet ((a mod 4) * 16))
           pad pad EmptyString
  | [x; y] =>
      let a := Byte.to_N x in
      let b := Byte.to_N y in
      str4 (encode_sextet (a / 4))
           (encode_sextet ((a mod 4) * 16 + b / 16))
           (encode_sextet ((b mod 16) * 4)) pad EmptyString
  | x :: y :: z :: rest =>
      let a := Byte.to_N x in
      let b := Byte.to_N y in
      let c := Byte.to_N z in
      str4 (encode_sextet (a / 4))
           (encode_sextet ((a mod 4) * 16 + b / 16))
           (encode_sextet ((b mod 16) * 4 + c / 64))
           (encode_sextet (c mod 64)) (encode rest)
  end.

Definition byte_of (n : N) : option byte := Byte.of_N n.

(** The decoder of padded base64 text. *)
Fixpoint decode (s : string) : option Buffer :=
  match s with
  | EmptyString => Some []
  | String c1 (String c2 (String c3 (String c4 rest))) =>
      match decode_sextet c1, decode_sextet c2 with
      | Some s1, Some s2 =>
          match byte_of (s1 * 4 + s2 / 16) with
          | None => None
          | Some x =>
              if Ascii.eqb c3 pad then
                if Ascii.eqb c4 pad then
                  match rest with EmptyString => Some [x] | _ => None end
                else None
              else
                match decode_sextet c3 with
                | None => None
                | Some s3 =>
                    match byte_of ((s2 mod 16) * 16 + s3 / 4) with
                    | None => None
                    | Some y =>
                        if Ascii.eqb c4 pad then
                          match rest with
                          | EmptyString => Some [x; y]
                          | _ => None
                          end
                        else
                          match decode_sextet c4 with
                          | None => None
                          | Some s4 =>
                              match byte_of ((s3 mod 4) * 64 + s4),
                                    decode rest with
                              | Some z, Some tl => Some (x :: y :: z :: tl)
                              | _, _ => None
                              end
                          end
                    end
                end
          end
      | _, _ => None
      end
  | _ => None
  end.

End Base64.

(* ------------------------------------------------------------------ *)
(** ** Syntax trees *)

Inductive Directive : Type := mkDirective (value : string).

(** The nodes the wrappers build; any other statement of a program is
    carried as plain data. *)
Inductive Expression : Type :=
| Identifier (name : string)
| CallExpression (callee : Expression) (arguments : list Expression)
| FunctionExpression (id : Expression) (params : list Expression)
                     (body : BlockStatement)
with Statement : Type :=
| ExpressionStatement (expression : Expression)
| SourceStatement (node : json)
with BlockStatement : Type :=
| mkBlockStatement (body : list Statement) (directives : list Directive).

(** A program and a file node.  Besides what the wrappers read, a node
    that comes from a parser or a transformer has other properties (the
    source type and the locations of a program, the comments and the
    tokens of a file), kept as plain data in [program_other] and
    [file_other]; a node made by a builder has none. *)
Record Program : Type := mkProgram {
  body : list Statement;
  directives : list Directive;
  program_other : jsobj json
}.

Record File : Type := mkFile { program : Program; file_other : jsobj json }.

(** The builders of [babel.types]. *)
Module t.
Definition identifier (name : string) : Expression := Identifier name.
Definition callExpression (callee : Expression) (args : list Expression)
  : Expression := CallExpression callee args.
Definition functionExpression (id : Expression) (params : list Expression)
  (b : BlockStatement) : Expression := FunctionExpression id params b.
Definition blockStatement (b : list Statement) (d : list Directive)
  : BlockStatement := mkBlockStatement b d.
Definition expressionStatement (e : Expression) : Statement :=
  ExpressionStatement e.
Definition program (b : list Statement) : Program := mkProgram b [] [].
Definition file (p : Program) : File := mkFile p [].
End t.

(* ------------------------------------------------------------------ *)
(** ** The data model of [types.flow] *)

Record TransformerResult : Type := mkTransformerResult { ast : File }.

(** [transform(code, filename, options)] returns a tree or throws; what
    it throws is an error object. *)
Record Transformer : Type := mkTransformer {
  transform : string -> string -> option json -> Error + TransformerResult
}.

Definition TransformVariants : Type := jsobj json.

Record TransformOptions : Type := mkOptions {
  filename : string;
  polyfill : option bool;
  transformer : Transformer;
  variants : option TransformVariants
}.

Record TransformResult : Type := mkTransformResult {
  r_code : string;
  r_map : option json;
  r_dependencies : list string;
  r_dependencyMapName : option string
}.

Record PackageData : Type := mkPackageData {
  p_name : option json;
  p_main : option json;
  p_browser : option json;
  p_react_native : option json
}.

(** A property value is [option json]: [None] is [undefined],
    [Some JNull] is [null]. *)
Record TransformedFile : Type := mkTransformedFile {
  f_assetContent : option string;
  f_code : string;
  f_file : string;
  f_hasteID : option json;
  f_package : option PackageData;
  f_transformed : jsobj TransformResult;
  f_type : string
}.

(* ------------------------------------------------------------------ *)
(** ** Effects: what a caller can observe *)

(** A call of the transformer for a variant is bracketed by two events;
    an invocation of the callback is one event, [callback(error)] being
    [Callback (Some error) None] and [callback(null, file)] being
    [Callback None (Some file)]. *)
Inductive event : Type :=
| TransformBegin (variant : string)
| TransformReturned (variant : string)
| TransformThrew (variant : string)
| Callback (error : option Error) (result : option TransformedFile).

Inductive completion (A : Type) : Type :=
| Normal (a : A)
| Throw (e : Error).
Arguments Normal {A} a.
Arguments Throw {A} e.

(** A computation: the events it causes, and how it completes. *)
Definition M (A : Type) : Type := (list event * completion A)%type.

Definition ret {A} (a : A) : M A := ([], Normal a).

Definition bind {A B} (m : M A) (k : A -> M B) : M B :=
  match m with
  | (tr, Normal a) => let (tr', c) := k a in (tr ++ tr', c)
  | (tr, Throw e) => (tr, Throw e)
  end.

Definition emit (e : event) : M unit := ([e], Normal tt).
Definition throw {A} (e : Error) : M A := ([], Throw e).

Notation "x <- m ;; k" := (bind m (fun x => k))
  (at level 61, m at next level, right associativity).
Notation "m ;;; k" := (bind m (fun _ => k))
  (at level 61, right associativity).

Definition trace {A} (m : M A) : list event := fst m.
Definition outcome {A} (m : M A) : completion A := snd m.

(** The callback of [transformModule].  What a callback that throws
    causes inside [async/series] is not modelled: the properties of the
    source-code path are stated for a callback that returns. *)
Definition Callback_t : Type :=
  option Error -> option TransformedFile -> M unit.

(** The callback of a caller that only takes note of what it is given. *)
Definition report : Callback_t := fun error result => emit (Callback error result).

(* ------------------------------------------------------------------ *)
(** ** Collaborators *)

Record CollectResult : Type := mkCollectResult {
  cd_dependencies : list string;
  cd_dependencyMapName : string;
  cd_ast : File
}.

Record GenerateResult : Type := mkGenerateResult {
  g_code : string;
  g_map : option json
}.

(** The modules this file requires from the repository and from the
    platform, of which only the interface is used here.
    [collectDependencies] walks the tree it is given and may rewrite it in
    place: [cd_ast] is the tree after the call. *)
Record Collaborators : Type := mkCollaborators {
  collectDependencies : File -> CollectResult;
  generate : File -> string -> string -> GenerateResult;
  docblock_extract : string -> string;
  docblock_parseAsObject : string -> jsobj string;
  toString_utf8 : Buffer -> string
}.

(** [async/series] on an object of tasks.  A task is given a callback and
    calls it once, with an error or with a result: here it returns that
    pair.  The tasks run one after the other in key order; at the first
    error no further task runs, and the final callback is given the error
    and the results recorded so far, otherwise the results of all. *)
Section Series.
Variable R : Type.

Definition Task : Type := M (option Error * option R).

Fixpoint series_from (ks : list string) (tasks : jsobj Task)
  (results : jsobj (option R)) : M (option Error * jsobj (option R)) :=
  match ks with
  | [] => ret (None, results)
  | k :: ks' =>
      match Obj.get tasks k with
      | None => series_from ks' tasks results
      | Some task =>
          r <- task ;;
          let results' := Obj.set results k (snd r) in
          match fst r with
          | Some e => ret (Some e, results')
          | None => series_from ks' tasks results'
          end
      end
  end.

Definition series (tasks : jsobj Task)
  : M (option Error * jsobj (option R)) :=
  series_from (Obj.keys tasks) tasks [].

End Series.

(* ------------------------------------------------------------------ *)
(** ** transform-module.js *)

Definition defaultVariants : TransformVariants := [("default", JObject [])].
Definition moduleFactoryParameters : list string :=
  ["global"; "require"; "module"; "exports"].
Definition polyfillFactoryParameters : list string := ["global"].

Definition makeIdentifier (name : string) : Expression := t.identifier name.

Definition functionFromProgram (p : Program) (parameters : list string)
  : Expression :=
  t.functionExpression
    (t.identifier EmptyString)
    (map makeIdentifier parameters)
    (t.blockStatement (body p) (directives p)).

Definition wrapModule (file : File) (dependencyMapName : string) : File :=
  let params := moduleFactoryParameters ++ [dependencyMapName] in
  let factory := functionFromProgram (program file) params in
  let def := t.callExpression (t.identifier "__d") [factory] in
  t.file (t.program [t.expressionStatement def]).

Definition wrapPolyfill (file : File) : File :=
  let factory := functionFromProgram (program file) polyfillFactoryParameters in
  let iife := t.callExpression factory [t.identifier "this"] in
  t.file (t.program [t.expressionStatement iife]).

Section TransformModule.
Variable E : Collaborators.

(** [isPolyfill] defaults to [false]. *)
Definition makeResult (ast : File) (filename sourceCode : string)
  (isPolyfill : option bool) : TransformResult :=
  let isPolyfill := match isPolyfill with Some b => b | None => false end in
  if isPolyfill then
    let file := wrapPolyfill ast in
    let gen := generate E file filename sourceCode in
    mkTransformResult (g_code gen) (g_map gen) [] None
  else
    let cd := collectDependencies E ast in
    let file := wrapModule (cd_ast cd) (cd_dependencyMapName cd) in
    let gen := generate E file filename sourceCode in
    mkTransformResult (g_code gen) (g_map gen) (cd_dependencies cd)
                      (Some (cd_dependencyMapName cd)).

Definition transformAsset (content : Buffer) (options : TransformOptions)
  (callback : Callback_t) : M unit :=
  callback None (Some {|
    f_assetContent := Some (Base64.encode content);
    f_code := EmptyString;
    f_file := filename options;
    f_hasteID := Some JNull;
    f_package := None;
    f_transformed := [];
    f_type := "asset"
  |}).

(** The property read [value.key] on a parsed value: it throws on
    [null], and is [undefined] on what has no such property. *)
Definition member (value : json) (key : string) : M (option json) :=
  match value with
  | JNull => throw (TypeError ("Cannot read property '" +++ key +++ "' of null"))
  | JObject props => ret (Obj.get props key)
  | _ => ret None
  end.

(** [a || b] on objects that may be [undefined]. *)
Definition or_else {A} (a : option A) (b : A) : A :=
  match a with Some x => x | None => b end.

Definition newline : string := String (ascii_of_N 10) EmptyString.

Definition transformJSON (json_text : string) (options : TransformOptions)
  (callback : Callback_t) : M unit :=
  match Json.parse json_text with
  | inl e => throw e
  | inr value =>
      let filename := filename options in
      let code :=
        "__d(function(" +++ Str.join ", " moduleFactoryParameters
        +++ ") { module.exports = " +++ newline
        +++ json_text
        +++ newline +++ "});" in
      let moduleData := {|
        r_code := code;
        r_map := None;
        r_dependencies := [];
        r_dependencyMapName := None
      |} in
      let transformed :=
        fold_left (fun transformed key => Obj.set transformed key moduleData)
                  (Obj.keys (or_else (variants options) defaultVariants))
                  [] in
      name <- member value "name" ;;
      let result := {|
        f_assetContent := None;
        f_code := json_text;
        f_file := filename;
        f_hasteID := name;
        f_package := None;
        f_transformed := transformed;
        f_type := "module"
      |} in
      if String.eqb (Str.basename filename) "package.json" then
        main <- member value "main" ;;
        browser <- member value "browser" ;;
        react_native <- member value "react-native" ;;
        callback None (Some {|
          f_assetContent := f_assetContent result;
          f_code := f_code result;
          f_file := f_file result;
          f_hasteID := f_hasteID result;
          f_package := Some (mkPackageData name main browser react_native);
          f_transformed := f_transformed result;
          f_type := f_type result
        |})
      else callback None (Some result)
  end.

(** The task of a variant: [cb(null, transformer.transform(...))] inside
    [try], [cb(error, null)] in [catch]. *)
Definition variant_task (code filename : string) (transformer : Transformer)
  (variants : TransformVariants) (name : string) : Task TransformerResult :=
  emit (TransformBegin name) ;;;
  match transform transformer code filename (Obj.get variants name) with
  | inr result => emit (TransformReturned name) ;;; ret (None, Some result)
  | inl error => emit (TransformThrew name) ;;; ret (Some error, None)
  end.

(** The loop over [Object.entries(results)]; reading [value.ast] throws
    when a result is [null]. *)
Fixpoint make_transformed (entries : list (string * option TransformerResult))
  (filename code : string) (isPolyfill : option bool)
  (transformed : jsobj TransformResult) : M (jsobj TransformResult) :=
  match entries with
  | [] => ret transformed
  | (key, value) :: rest =>
      match value with
      | None => throw (TypeError "Cannot read property 'ast' of null")
      | Some v =>
          make_transformed rest filename code isPolyfill
            (Obj.set transformed key
               (makeResult (ast v) filename code isPolyfill))
      end
  end.

(** [annotations.providesModule || null]. *)
Definition providesModule (annotations : jsobj string) : json :=
  match Obj.get annotations "providesModule" with
  | Some EmptyString => JNull
  | Some s => JString s
  | None => JNull
  end.

Definition is_true (b : option bool) : bool :=
  match b with Some true => true | _ => false end.

Definition transformModule (content : Buffer) (options : TransformOptions)
  (callback : Callback_t) : M unit :=
  if Str.endsWith (filename options) ".png" then
    transformAsset content options callback
  else
    let code := toString_utf8 E content in
    if Str.endsWith (filename options) ".json" then
      transformJSON code options callback
    else
      let filename := filename options in
      let transformer := transformer options in
      let variants := or_else (variants options) defaultVariants in
      let tasks :=
        fold_left
          (fun tasks name =>
             Obj.set tasks name
               (variant_task code filename transformer variants name))
          (Obj.keys variants) [] in
      r <- series tasks ;;
      match fst r with
      | Some error => callback (Some error) None
      | None =>
          transformed <-
            make_transformed (Obj.entries (snd r)) filename code
                             (polyfill options) [] ;;
          let annotations :=
            docblock_parseAsObject E (docblock_extract E code) in
          callback None (Some {|
            f_assetContent := None;
            f_code := code;
            f_file := filename;
            f_hasteID := Some (providesModule annotations);
            f_package := None;
            f_transformed := transformed;
            f_type := if is_true (polyfill options) then "script" else "module"
          |})
      end.

End TransformModule.

(* ------------------------------------------------------------------ *)
(** ** What a run of the source-code path amounts to *)

(** The variants after defaulting. *)
Definition variants_of (options : TransformOptions) : TransformVariants :=
  or_else (variants options) defaultVariants.

(** What the transformer answers for a variant of a file. *)
Definition answer (code : string) (options : TransformOptions) (name : string)
  : Error + TransformerResult :=
  transform (transformer options) code (filename options)
            (Obj.get (variants_of options) name).

Section Runs.
Variable R : Type.
Variable f : string -> Error + R.

(** The events of the transformer calls for the keys [ks], taken in
    order up to the first call that throws. *)
Fixpoint invocation_trace (ks : list string) : list event :=
  match ks with
  | [] => []
  | k :: ks' =>
      match f k with
      | inr _ => TransformBegin k :: TransformReturned k :: invocation_trace ks'
      | inl _ => [TransformBegin k; TransformThrew k]
      end
  end.

(** The error and the results [series] hands to its final callback. *)
Fixpoint outcomes (ks : list string) : option Error * jsobj (option R) :=
  match ks with
  | [] => (None, [])
  | k :: ks' =>
      match f k with
      | inr r => let (e, res) := outcomes ks' in (e, (k, Some r) :: res)
      | inl e => (Some e, [(k, None)])
      end
  end.

(** The first key whose call throws, with the error. *)
Fixpoint first_error (ks : list string) : option (string * Error) :=
  match ks with
  | [] => None
  | k :: ks' =>
      match f k with
      | inr _ => first_error ks'
      | inl e => Some (k, e)
      end
  end.

Definition result_of (k : string) : option R :=
  match f k with inr r => Some r | inl _ => None end.

End Runs.

(** The invocations of the callback in a trace. *)
Definition is_callback (ev : event) : bool :=
  match ev with Callback _ _ => true | _ => false end.

Definition callbacks (tr : list event) : list event := filter is_callback tr.

(** The files delivered to the callback in a trace. *)
Fixpoint delivered (tr : list event) : list TransformedFile :=
  match tr with
  | [] => []
  | Callback _ (Some file) :: rest => file :: delivered rest
  | _ :: rest => delivered rest
  end.

(** Whether a transformer call begins while another one is in progress;
    [open] tells that a call is in progress. *)
Fixpoint overlaps (open : bool) (tr : list event) : bool :=
  match tr with
  | [] => false
  | TransformBegin _ :: rest => if open then true else overlaps true rest
  | TransformReturned _ :: rest => overlaps false rest
  | TransformThrew _ :: rest => overlaps false rest
  | Callback _ _ :: rest => overlaps open rest
  end.

(** The variants whose transformer call began, in the order of the calls. *)
Fixpoint begun (tr : list event) : list string :=
  match tr with
  | [] => []
  | TransformBegin k :: rest => k :: begun rest
  | _ :: rest => begun rest
  end.

(** The three paths of [transformModule]. *)
Inductive path : Type := AssetPath | JsonPath | SourcePath.

Definition classify (filename : string) : path :=
  if Str.endsWith filename ".png" then AssetPath
  else if Str.endsWith filename ".json" then JsonPath
  else SourcePath.

(** The result of the source-code path when no transformer call throws. *)
Definition module_file (E : Collaborators) (content : Buffer)
  (options : TransformOptions) : TransformedFile :=
  let code := toString_utf8 E content in {|
    f_assetContent := None;
    f_code := code;
    f_file := filename options;
    f_hasteID :=
      Some (providesModule (docblock_parseAsObject E (docblock_extract E code)));
    f_package := None;
    f_transformed :=
      flat_map
        (fun k =>
           match answer code options k with
           | inr r => [(k, makeResult E (ast r) (filename options) code
                                      (polyfill options))]
           | inl _ => []
           end)
        (Obj.keys (variants_of options));
    f_type := if is_true (polyfill options) then "script" else "module"
  |}.

(* ------------------------------------------------------------------ *)
(** ** Extensions of image files *)

(** Following the words of the specification, "a filename that indicates
    an image or binary asset type": the filename has the extension of an
    image format. *)
Definition image_extensions : list string :=
  [".png"; ".jpg"; ".jpeg"; ".gif"; ".bmp"; ".webp"].

Definition spec_indicates_image_asset (filename : string) : bool :=
  existsb (Str.endsWith filename) image_extensions.

(* ------------------------------------------------------------------ *)
(** ** Sample collaborators and inputs *)

Module Demo.

Definition quote : string := String (ascii_of_N 34) EmptyString.
Definition q (s : string) : string := quote +++ s +++ quote.

(** The bytes of an ASCII text. *)
Definition bytes (s : string) : Buffer := list_byte_of_string s.

Definition tree (code : string) : File :=
  mkFile (mkProgram [SourceStatement (JString code)]
                    [mkDirective "use strict"]
                    [("sourceType", JString "script")])
         [("comments", JArray [])].

(** A transformer that throws when the configuration of the variant has a
    string property [throw], with that message. *)
Definition transformer : Transformer := {|
  transform := fun code filename config =>
    match config with
    | Some (JObject props) =>
        match Obj.get props "throw" with
        | Some (JString msg) => inl (mkError "TransformError" msg)
        | _ => inr (mkTransformerResult (tree code))
        end
    | _ => inr (mkTransformerResult (tree code))
    end
|}.

Definition collaborators : Collaborators := {|
  collectDependencies := fun ast => mkCollectResult [] "_dependencyMap" ast;
  generate := fun file filename sourceCode => mkGenerateResult sourceCode None;
  docblock_extract := fun code => EmptyString;
  docblock_parseAsObject := fun comment => [];
  toString_utf8 := string_of_list_byte
|}.

Definition options (filename : string) (polyfill : option bool)
  (variants : option TransformVariants) : TransformOptions :=
  mkOptions filename polyfill transformer variants.

Definition two_variants : TransformVariants :=
  [("debug", JObject [("dev", JBool true)]);
   ("release", JObject [("dev", JBool false)])].

Definition failing_variants : TransformVariants :=
  [("debug", JObject [("dev", JBool true)]);
   ("broken", JObject [("throw", JString "unexpected token")]);
   ("release", JObject [("dev", JBool false)])].

(** The text [{"name":"pkg","main":"index.js"}]. *)
Definition manifest_text : string :=
  "{" +++ q "name" +++ ":" +++ q "pkg" +++ ","
      +++ q "main" +++ ":" +++ q "index.js" +++ "}".

End Demo.

(* ------------------------------------------------------------------ *)
(** ** What a run of the JSON path amounts to *)

(** The value of the read [value.key] where it does not throw. *)
Definition field (value : json) (key : string) : option json :=
  match value with
  | JObject props => Obj.get props key
  | _ => None
  end.

(** The module data of a JSON file. *)
Definition json_module_data (text : string) : TransformResult := {|
  r_code := "__d(function(global, require, module, exports) { module.exports = "
            +++ newline +++ text +++ newline +++ "});";
  r_map := None;
  r_dependencies := [];
  r_dependencyMapName := None
|}.

(** The file of the JSON path for a text that parses to [value], when the
    reads of its properties do not throw. *)
Definition json_file (text : string) (options : TransformOptions)
  (value : json) : TransformedFile := {|
  f_assetContent := None;
  f_code := text;
  f_file := filename options;
  f_hasteID := field value "name";
  f_package :=
    if String.eqb (Str.basename (filename options)) "package.json"
    then Some (mkPackageData (field value "name") (field value "main")
                             (field value "browser")
                             (field value "react-native"))
    else None;
  f_transformed :=
    fold_left (fun transformed key =>
                 Obj.set transformed key (json_module_data text))
              (Obj.keys (variants_of options)) [];
  f_type := "module"
|}.

(** Whether a path has no separator. *)
Fixpoint no_slash (s : string) : bool :=
  match s with
  | EmptyString => true
  | String c rest => negb (Ascii.eqb c Str.slash) && no_slash rest
  end.

(** The events of transformer calls that all return. *)
Definition calls_returned (ks : list string) : list event :=
  flat_map (fun k => [TransformBegin k; TransformReturned k]) ks.

(* ------------------------------------------------------------------ *)
(** ** Further sample inputs *)

Module Samples.

(** Collaborators whose docblock parser finds a [providesModule]
    annotation, and whose dependency collector finds one dependency. *)
Definition collaborators : Collaborators := {|
  collectDependencies := fun ast => mkCollectResult ["react"] "_dependencyMap" ast;
  generate := fun file filename sourceCode => mkGenerateResult sourceCode None;
  docblock_extract := fun code => "@providesModule Shim";
  docblock_parseAsObject := fun comment => [("providesModule", "Shim")];
  toString_utf8 := string_of_list_byte
|}.

(** Collaborators with another dependency collector. *)
Definition other_collector : Collaborators := {|
  collectDependencies := fun ast => mkCollectResult [] "_other" (Demo.tree "");
  generate := fun file filename sourceCode => mkGenerateResult sourceCode None;
  docblock_extract := fun code => "@providesModule Shim";
  docblock_parseAsObject := fun comment => [("providesModule", "Shim")];
  toString_utf8 := string_of_list_byte
|}.

Definition manifest_value : json :=
  JObject [("name", JString "pkg"); ("main", JString "index.js")].

(** A tree with the statement and the directive of [Demo.tree] and other
    properties of its own. *)
Definition parsed_tree (code : string) : File :=
  mkFile (mkProgram [SourceStatement (JString code)]
                    [mkDirective "use strict"]
                    [("sourceType", JString "module")])
         [("comments", JArray [JString "a comment"]);
          ("tokens", JArray [])].

End Samples.

(* ------------------------------------------------------------------ *)
(** * Properties of objects and of the key order *)

Module ObjFacts.
Import Obj.

Lemma get_app_fresh V (o1 o2 : jsobj V) k :
  ~ In k (map fst o1) -> get (o1 ++ o2) k = get o2 k.
Proof.
  induction o1 as [|[k' v'] o1 IH]; simpl; intros Hk; [reflexivity|].
  destruct (String.eqb_spec k' k) as [->|Hne].
  - exfalso; apply Hk; now left.
  - apply IH; intros Hin; apply Hk; now right.
Qed.

Lemma get_map_key V (f : string -> V) ks k :
  In k ks -> get (map (fun x => (x, f x)) ks) k = Some (f k).
Proof.
  induction ks as [|x ks IH]; simpl; [tauto|].
  intros [->|Hin].
  - now rewrite String.eqb_refl.
  - destruct (String.eqb_spec x k) as [->|_]; [reflexivity|now apply IH].
Qed.

Lemma define_fresh V (o : jsobj V) k v :
  ~ In k (map fst o) -> define o k v = o ++ [(k, v)].
Proof.
  induction o as [|[k' v'] o IH]; simpl; intros Hk; [reflexivity|].
  destruct (String.eqb_spec k' k) as [->|Hne].
  - exfalso; apply Hk; now left.
  - f_equal; apply IH; intros Hin; apply Hk; now right.
Qed.

Lemma set_define V (o : jsobj V) k v :
  k <> "__proto__" -> set o k v = define o k v.
Proof.
  intros Hk. unfold set.
  destruct (String.eqb_spec k "__proto__"); [contradiction|reflexivity].
Qed.

(** An assignment under [__proto__] stores nothing. *)
Lemma set_proto V (o : jsobj V) v : set o "__proto__" v = o.
Proof. reflexivity. Qed.

Lemma set_fresh V (o : jsobj V) k v :
  k <> "__proto__" -> ~ In k (map fst o) -> set o k v = o ++ [(k, v)].
Proof.
  intros Hk Hin. rewrite set_define by exact Hk. now apply define_fresh.
Qed.

(** Writing fresh keys one after the other lists them in that order. *)
Lemma fold_set_fresh V (f : string -> V) ks : forall (o : jsobj V),
  NoDup ks ->
  ~ In "__proto__" ks ->
  (forall k, In k ks -> ~ In k (map fst o)) ->
  fold_left (fun acc k => set acc k (f k)) ks o
  = o ++ map (fun k => (k, f k)) ks.
Proof.
  induction ks as [|k ks IH]; simpl; intros o Hnd Hproto Hfresh.
  - now rewrite app_nil_r.
  - inversion Hnd as [|? ? Hk Hnd']; subst.
    rewrite set_fresh;
      [|intros ->; apply Hproto; now left|apply Hfresh; now left].
    rewrite IH; trivial.
    + now rewrite <- app_assoc.
    + intros H; apply Hproto; now right.
    + intros k' Hin. rewrite map_app, in_app_iff; simpl.
      intros [H|[H|[]]].
      * apply (Hfresh k'); [now right|exact H].
      * subst; contradiction.
Qed.

Lemma map_fst_keyed V (f : string -> V) ks :
  map fst (map (fun k => (k, f k)) ks) = ks.
Proof.
  rewrite map_map; simpl. apply map_id.
Qed.

(** ** Sorting the array indices *)

Lemma insert_index_sorted_head x l :
  HdRel le_index x l -> insert_index x l = x :: l.
Proof.
  destruct l as [|y l]; simpl; [reflexivity|].
  intros H; inversion H; subst.
  unfold le_index in *.
  destruct (N.leb_spec (fst x) (fst y)); [reflexivity|lia].
Qed.

Lemma sort_index_sorted l : Sorted le_index l -> sort_index l = l.
Proof.
  induction 1 as [|x l Hs IH Hhd]; [reflexivity|].
  unfold sort_index in *; simpl. rewrite IH.
  now apply insert_index_sorted_head.
Qed.

Lemma insert_index_hd a x l :
  le_index a x -> HdRel le_index a l -> HdRel le_index a (insert_index x l).
Proof.
  destruct l as [|y l]; simpl; intros Hax Hal.
  - now constructor.
  - destruct (fst x <=? fst y)%N; constructor; trivial.
    now inversion Hal.
Qed.

Lemma insert_index_sorted x l :
  Sorted le_index l -> Sorted le_index (insert_index x l).
Proof.
  induction 1 as [|y l Hs IH Hhd]; simpl.
  - repeat constructor.
  - destruct (N.leb_spec (fst x) (fst y)) as [Hle|Hgt].
    + constructor; [now constructor|now constructor].
    + constructor; [exact IH|].
      apply insert_index_hd; trivial. unfold le_index; lia.
Qed.

Lemma sort_index_is_sorted l : Sorted le_index (sort_index l).
Proof.
  induction l as [|x l IH]; simpl; [constructor|].
  now apply insert_index_sorted.
Qed.

Lemma insert_index_perm x l : Permutation (insert_index x l) (x :: l).
Proof.
  induction l as [|y l IH]; simpl; [reflexivity|].
  destruct (fst x <=? fst y)%N; [reflexivity|].
  rewrite IH. apply perm_swap.
Qed.

Lemma sort_index_perm l : Permutation (sort_index l) l.
Proof.
  induction l as [|x l IH]; simpl; [reflexivity|].
  rewrite insert_index_perm. now constructor.
Qed.

(** ** The order of [Object.keys] *)

Lemma index_keys_keyed ks : Forall keyed (index_keys ks).
Proof.
  induction ks as [|k ks IH]; simpl; [constructor|].
  destruct (array_index k) eqn:Hk; [constructor|]; trivial.
Qed.

Lemma index_keys_of_keyed l :
  Forall keyed l -> index_keys (map snd l) = l.
Proof.
  induction 1 as [|[n k] l Hk _ IH]; simpl; [reflexivity|].
  unfold keyed in Hk; simpl in Hk. now rewrite Hk, IH.
Qed.

Lemma index_keys_app ks1 ks2 :
  index_keys (ks1 ++ ks2) = index_keys ks1 ++ index_keys ks2.
Proof.
  induction ks1 as [|k ks1 IH]; simpl; [reflexivity|].
  destruct (array_index k); simpl; now rewrite IH.
Qed.

Lemma index_keys_name_keys ks : index_keys (name_keys ks) = [].
Proof.
  unfold name_keys.
  induction ks as [|k ks IH]; simpl; [reflexivity|].
  unfold is_index at 1.
  destruct (array_index k) eqn:Hk; simpl; [exact IH|].
  now rewrite Hk.
Qed.

Lemma name_keys_of_keyed l : Forall keyed l -> name_keys (map snd l) = [].
Proof.
  unfold name_keys.
  induction 1 as [|[n k] l Hk _ IH]; simpl; [reflexivity|].
  unfold keyed in Hk; simpl in Hk. unfold is_index at 1.
  now rewrite Hk.
Qed.

Lemma name_keys_idem ks : name_keys (name_keys ks) = name_keys ks.
Proof.
  unfold name_keys.
  induction ks as [|k ks IH]; simpl; [reflexivity|].
  destruct (negb (is_index k)) eqn:Hk; simpl; [|exact IH].
  now rewrite Hk, IH.
Qed.

Lemma sort_index_keyed l : Forall keyed l -> Forall keyed (sort_index l).
Proof.
  intros H. eapply Permutation_Forall; [|exact H].
  symmetry; apply sort_index_perm.
Qed.

(** Keys already in the order of [Object.keys] stay as they are. *)
Lemma order_keys_idem ks : order_keys (order_keys ks) = order_keys ks.
Proof.
  unfold order_keys at 2.
  set (A := sort_index (index_keys ks)).
  assert (HA : Forall keyed A)
    by (apply sort_index_keyed, index_keys_keyed).
  unfold order_keys.
  rewrite index_keys_app, index_keys_name_keys, app_nil_r.
  rewrite (index_keys_of_keyed HA).
  unfold name_keys at 1. rewrite filter_app.
  fold (name_keys (map snd A)). fold (name_keys (name_keys ks)).
  rewrite (name_keys_of_keyed HA), name_keys_idem; simpl.
  assert (HS : Sorted le_index A) by apply sort_index_is_sorted.
  now rewrite (sort_index_sorted HS).
Qed.

Lemma index_keys_perm ks :
  Permutation (map snd (index_keys ks) ++ name_keys ks) ks.
Proof.
  unfold name_keys.
  induction ks as [|k ks IH]; simpl; [reflexivity|].
  unfold is_index at 1.
  destruct (array_index k); simpl.
  - now constructor.
  - rewrite <- Permutation_middle. now constructor.
Qed.

Lemma order_keys_perm ks : Permutation (order_keys ks) ks.
Proof.
  unfold order_keys.
  rewrite (Permutation_map snd (sort_index_perm (index_keys ks))).
  apply index_keys_perm.
Qed.

Lemma order_keys_NoDup ks : NoDup ks -> NoDup (order_keys ks).
Proof.
  intros H. eapply Permutation_NoDup; [|exact H].
  symmetry; apply order_keys_perm.
Qed.

Lemma order_keys_In ks k : In k (order_keys ks) <-> In k ks.
Proof.
  split; apply Permutation_in;
    [apply order_keys_perm | symmetry; apply order_keys_perm].
Qed.

Lemma keys_NoDup V (o : jsobj V) : wf o -> NoDup (keys o).
Proof. intros [Hnd _]. now apply order_keys_NoDup. Qed.

Lemma keys_In V (o : jsobj V) k : In k (keys o) <-> In k (map fst o).
Proof. apply order_keys_In. Qed.

Lemma keys_proto_free V (o : jsobj V) : wf o -> ~ In "__proto__" (keys o).
Proof. intros [_ Hproto] Hin. apply Hproto. now apply keys_In. Qed.

(** The object written key by key in the order of [Object.keys] of
    another one reports its keys in the same order. *)
Lemma keys_keyed V W (o : jsobj V) (f : string -> W) :
  keys (map (fun k => (k, f k)) (keys o)) = keys o.
Proof.
  unfold keys at 1. rewrite map_fst_keyed. apply order_keys_idem.
Qed.

Lemma entries_of_keyed W (f : string -> W) (all ks : list string) :
  (forall k, In k ks -> In k all) ->
  flat_map (fun k => match get (map (fun x => (x, f x)) all) k with
                     | Some v => [(k, v)]
                     | None => []
                     end) ks
  = map (fun k => (k, f k)) ks.
Proof.
  induction ks as [|k ks IH]; simpl; intros Hin; [reflexivity|].
  rewrite get_map_key by (apply Hin; now left).
  simpl. f_equal. apply IH. intros k' Hk'. apply Hin; now right.
Qed.

Lemma entries_keyed V W (o : jsobj V) (f : string -> W) :
  entries (map (fun k => (k, f k)) (keys o))
  = map (fun k => (k, f k)) (keys o).
Proof.
  unfold entries. rewrite keys_keyed.
  now apply entries_of_keyed.
Qed.

End ObjFacts.

(* ------------------------------------------------------------------ *)
(** * The source-code path *)

Module SourceFacts.
Import ObjFacts.

Lemma bind_ret_l A B (a : A) (k : A -> M B) : bind (ret a) k = k a.
Proof. unfold bind, ret. destruct (k a); reflexivity. Qed.

Lemma bind_normal A B tr (a : A) (k : A -> M B) :
  bind (tr, Normal a) k = (tr ++ fst (k a), snd (k a)).
Proof. unfold bind. destruct (k a); reflexivity. Qed.

Section Variants.
Variable code : string.
Variable options : TransformOptions.

Let f := answer code options.
Let task :=
  variant_task code (filename options) (transformer options)
               (variants_of options).

Lemma variant_task_run k :
  task k
  = match f k with
    | inr r => ([TransformBegin k; TransformReturned k], Normal (None, Some r))
    | inl e => ([TransformBegin k; TransformThrew k], Normal (Some e, None))
    end.
Proof.
  unfold task, variant_task, f, answer.
  destruct (transform _ _ _ _); reflexivity.
Qed.

(** [series] runs the tasks of the keys in order and stops at the first
    error. *)
Lemma series_from_run tasks ks : forall results,
  NoDup ks ->
  ~ In "__proto__" ks ->
  (forall k, In k ks -> ~ In k (map fst results)) ->
  (forall k, In k ks -> Obj.get tasks k = Some (task k)) ->
  series_from ks tasks results
  = (invocation_trace f ks,
     Normal (fst (outcomes f ks), results ++ snd (outcomes f ks))).
Proof.
  induction ks as [|k ks IH]; intros results Hnd Hproto Hfresh Hget.
  - simpl. unfold ret. now rewrite app_nil_r.
  - inversion Hnd as [|? ? Hk Hnd']; subst.
    assert (Hkp : k <> "__proto__") by (intros ->; apply Hproto; now left).
    assert (Hproto' : ~ In "__proto__" ks)
      by (intros H; apply Hproto; now right).
    simpl. rewrite (Hget k) by now left.
    rewrite variant_task_run.
    destruct (f k) as [e|r] eqn:Hfk.
    + rewrite bind_normal. cbn [fst snd].
      rewrite set_fresh; [reflexivity|exact Hkp|apply Hfresh; now left].
    + rewrite bind_normal. cbn [fst snd].
      rewrite set_fresh; [|exact Hkp|apply Hfresh; now left].
      rewrite IH; trivial.
      * destruct (outcomes f ks) as [e res]; simpl.
        now rewrite <- app_assoc.
      * intros k' Hin. rewrite map_app, in_app_iff; simpl.
        intros [H|[H|[]]].
        -- apply (Hfresh k'); [now right|exact H].
        -- subst; contradiction.
      * intros k' Hin. apply Hget. now right.
Qed.

Lemma outcomes_first_error ks :
  fst (outcomes f ks) = option_map snd (first_error f ks).
Proof.
  induction ks as [|k ks IH]; simpl; [reflexivity|].
  destruct (f k); [reflexivity|].
  destruct (outcomes f ks); simpl in *. exact IH.
Qed.

Lemma outcomes_all_ok ks :
  fst (outcomes f ks) = None ->
  snd (outcomes f ks) = map (fun k => (k, result_of f k)) ks
  /\ forall k, In k ks -> exists r, f k = inr r.
Proof.
  induction ks as [|k ks IH]; simpl.
  - intros _. split; [reflexivity|tauto].
  - unfold result_of at 1.
    destruct (f k) as [e|r] eqn:Hfk; simpl; [discriminate|].
    destruct (outcomes f ks) as [e res]; simpl in *.
    intros He. destruct (IH He) as [Hres Hall].
    split; [now rewrite Hres|].
    intros k' [<-|Hin]; [now exists r|now apply Hall].
Qed.

Lemma first_error_none ks :
  (forall k, In k ks -> exists r, f k = inr r) -> first_error f ks = None.
Proof.
  induction ks as [|k ks IH]; simpl; intros Hall; [reflexivity|].
  destruct (Hall k) as [r Hr]; [now left|]. rewrite Hr.
  apply IH. intros k' Hin. apply Hall. now right.
Qed.

Lemma first_error_some ks k e :
  In k ks -> f k = inl e ->
  exists k0 e0 before after,
    first_error f ks = Some (k0, e0) /\ f k0 = inl e0
    /\ ks = before ++ k0 :: after
    /\ (forall k', In k' before -> exists r, f k' = inr r).
Proof.
  induction ks as [|x ks IH]; simpl; [tauto|].
  intros Hin Hfk.
  destruct (f x) as [ex|rx] eqn:Hfx.
  - exists x, ex, [], ks. repeat split; trivial. simpl; tauto.
  - destruct Hin as [->|Hin]; [congruence|].
    destruct (IH Hin Hfk) as (k0 & e0 & before & after & H1 & H2 & H3 & H4).
    exists k0, e0, (x :: before), after. repeat split; trivial.
    + now rewrite H3.
    + intros k' [<-|Hk']; [now exists rx|now apply H4].
Qed.

End Variants.

Section Transformed.
Variable E : Collaborators.
Variable code : string.
Variable options : TransformOptions.

Let f := answer code options.
Let mk (k : string) : list (string * TransformResult) :=
  match f k with
  | inr r => [(k, makeResult E (ast r) (filename options) code
                             (polyfill options))]
  | inl _ => []
  end.

Lemma make_transformed_run ks : forall acc,
  NoDup ks ->
  ~ In "__proto__" ks ->
  (forall k, In k ks -> ~ In k (map fst acc)) ->
  (forall k, In k ks -> exists r, f k = inr r) ->
  make_transformed E (map (fun k => (k, result_of f k)) ks)
                   (filename options) code (polyfill options) acc
  = ret (acc ++ flat_map mk ks).
Proof.
  induction ks as [|k ks IH]; intros acc Hnd Hproto Hfresh Hall; simpl.
  - now rewrite app_nil_r.
  - inversion Hnd as [|? ? Hk Hnd']; subst.
    assert (Hkp : k <> "__proto__") by (intros ->; apply Hproto; now left).
    assert (Hproto' : ~ In "__proto__" ks)
      by (intros H; apply Hproto; now right).
    destruct (Hall k) as [r Hr]; [now left|].
    unfold result_of at 1, mk at 1. rewrite Hr.
    rewrite set_fresh; [|exact Hkp|apply Hfresh; now left].
    rewrite IH; trivial.
    + simpl. now rewrite <- app_assoc.
    + intros k' Hin. rewrite map_app, in_app_iff; simpl.
      intros [H|[H|[]]].
      * apply (Hfresh k'); [now right|exact H].
      * subst; contradiction.
    + intros k' Hin. apply Hall. now right.
Qed.

Lemma flat_map_mk_keys ks :
  (forall k, In k ks -> exists r, f k = inr r) ->
  map fst (flat_map mk ks) = ks.
Proof.
  induction ks as [|k ks IH]; simpl; intros Hall; [reflexivity|].
  destruct (Hall k) as [r Hr]; [now left|].
  unfold mk at 1. rewrite Hr. simpl. f_equal.
  apply IH. intros k' Hin. apply Hall. now right.
Qed.

End Transformed.

(** The source-code path as a whole: the transformer calls in key order
    up to the first one that throws, then one invocation of the callback,
    with the error of that call or with the assembled file. *)
Lemma transformModule_source E content options :
  classify (filename options) = SourcePath ->
  Obj.wf (variants_of options) ->
  let code := toString_utf8 E content in
  let ks := Obj.keys (variants_of options) in
  transformModule E content options report
  = (invocation_trace (answer code options) ks
       ++ [match first_error (answer code options) ks with
           | Some (_, e) => Callback (Some e) None
           | None => Callback None (Some (module_file E content options))
           end],
     Normal tt).
Proof.
  intros Hpath Hwf code ks.
  unfold classify in Hpath.
  unfold transformModule.
  destruct (Str.endsWith (filename options) ".png"); [discriminate|].
  destruct (Str.endsWith (filename options) ".json"); [discriminate|].
  fold code. fold (variants_of options). fold ks.
  assert (Hnd : NoDup ks) by now apply keys_NoDup.
  assert (Hproto : ~ In "__proto__" ks) by now apply keys_proto_free.
  rewrite (@fold_set_fresh _
             (variant_task code (filename options) (transformer options)
                           (variants_of options)) ks [] Hnd Hproto)
    by (intros k _ []).
  simpl app. unfold series. unfold ks at 1. rewrite keys_keyed. fold ks.
  rewrite (@series_from_run code options _ ks []); trivial.
  2:{ intros k _ []. }
  2:{ intros k Hin. now apply get_map_key. }
  rewrite bind_normal. cbn [fst snd]. rewrite app_nil_l.
  pose proof (outcomes_first_error code options ks) as Hfe.
  destruct (first_error (answer code options) ks) as [[k0 e0]|] eqn:Hfirst;
    simpl in Hfe.
  - rewrite Hfe. reflexivity.
  - rewrite Hfe.
    destruct (outcomes_all_ok code options ks Hfe) as [Hres Hall].
    rewrite Hres. unfold ks at 2 3. rewrite entries_keyed. fold ks.
    rewrite (@make_transformed_run E code options ks []); trivial.
    intros k _ [].
Qed.

End SourceFacts.

(* ------------------------------------------------------------------ *)
(** * Base64 *)

Module Base64Facts.
Import Base64.

Ltac Zify.zify_post_hook ::= Z.to_euclidean_division_equations.

Lemma N_of_ascii_of_N n : (n < 256)%N -> N_of_ascii (ascii_of_N n) = n.
Proof. apply N_ascii_embedding. Qed.

(** A six-bit value is read back from its character. *)
Lemma decode_encode_sextet n :
  (n < 64)%N -> decode_sextet (encode_sextet n) = Some n.
Proof.
  intros Hn. unfold encode_sextet, decode_sextet.
  destruct (N.ltb_spec n 26).
  { rewrite N_of_ascii_of_N by lia.
    replace ((65 <=? n + 65)%N && (n + 65 <=? 90)%N) with true.
    - f_equal; lia.
    - symmetry; apply andb_true_iff; split; apply N.leb_le; lia. }
  destruct (N.ltb_spec n 52).
  { rewrite N_of_ascii_of_N by lia.
    replace ((65 <=? n + 71)%N && (n + 71 <=? 90)%N) with false.
    2:{ symmetry; apply andb_false_iff; right; apply N.leb_gt; lia. }
    replace ((97 <=? n + 71)%N && (n + 71 <=? 122)%N) with true.
    - f_equal; lia.
    - symmetry; apply andb_true_iff; split; apply N.leb_le; lia. }
  destruct (N.ltb_spec n 62).
  { rewrite N_of_ascii_of_N by lia.
    replace ((65 <=? n - 4)%N && (n - 4 <=? 90)%N) with false.
    2:{ symmetry; apply andb_false_iff; left; apply N.leb_gt; lia. }
    replace ((97 <=? n - 4)%N && (n - 4 <=? 122)%N) with false.
    2:{ symmetry; apply andb_false_iff; left; apply N.leb_gt; lia. }
    replace ((48 <=? n - 4)%N && (n - 4 <=? 57)%N) with true.
    - f_equal; lia.
    - symmetry; apply andb_true_iff; split; apply N.leb_le; lia. }
  destruct (N.eqb_spec n 62) as [->|Hne]; [reflexivity|].
  assert (n = 63%N) as -> by lia. reflexivity.
Qed.

(** No character of the alphabet is the padding character. *)
Lemma encode_sextet_not_pad n :
  (n < 64)%N -> Ascii.eqb (encode_sextet n) pad = false.
Proof.
  intros Hn. apply Ascii.eqb_neq. intros Heq.
  apply (f_equal decode_sextet) in Heq.
  rewrite decode_encode_sextet in Heq by exact Hn.
  discriminate Heq.
Qed.

Lemma to_N_lt x : (Byte.to_N x < 256)%N.
Proof. pose proof (Byte.to_N_bounded x); lia. Qed.

Lemma byte_of_to_N x n : n = Byte.to_N x -> byte_of n = Some x.
Proof. intros ->. apply Byte.of_to_N. Qed.

(** Induction on a list three elements at a time. *)
Lemma list_ind3 A (P : list A -> Prop) :
  P [] -> (forall x, P [x]) -> (forall x y, P [x; y]) ->
  (forall x y z l, P l -> P (x :: y :: z :: l)) ->
  forall l, P l.
Proof.
  intros H0 H1 H2 H3 l.
  assert (H : P l /\ (forall x, P (x :: l)) /\ (forall x y, P (x :: y :: l))).
  { induction l as [|a l (IH0 & IH1 & IH2)].
    - repeat split; trivial.
    - repeat split; trivial. intros x y. now apply H3. }
  exact (proj1 H).
Qed.

Ltac sextet_step :=
  rewrite !decode_encode_sextet by lia;
  rewrite ?encode_sextet_not_pad by lia.

(** Decoding the base64 text of a buffer gives the buffer back. *)
Lemma decode_encode bs : decode (encode bs) = Some bs.
Proof.
  induction bs as [|x|x y|x y z rest IH] using list_ind3.
  - reflexivity.
  - pose proof (to_N_lt x).
    cbn [encode decode str4].
    sextet_step.
    rewrite (@byte_of_to_N x) by lia.
    now rewrite Ascii.eqb_refl.
  - pose proof (to_N_lt x). pose proof (to_N_lt y).
    cbn [encode decode str4].
    sextet_step.
    rewrite (@byte_of_to_N x) by lia.
    rewrite (@byte_of_to_N y) by lia.
    now rewrite Ascii.eqb_refl.
  - pose proof (to_N_lt x). pose proof (to_N_lt y). pose proof (to_N_lt z).
    cbn [encode decode str4]. fold encode. fold decode.
    sextet_step.
    rewrite (@byte_of_to_N x) by lia.
    rewrite (@byte_of_to_N y) by lia.
    rewrite (@byte_of_to_N z) by lia.
    now rewrite IH.
Qed.

End Base64Facts.

(* ------------------------------------------------------------------ *)
(** * Traces of the source-code path *)

Module TraceFacts.

Section Traces.
Variable R : Type.
Variable f : string -> Error + R.

Lemma callbacks_app tr1 tr2 :
  callbacks (tr1 ++ tr2) = callbacks tr1 ++ callbacks tr2.
Proof. apply filter_app. Qed.

Lemma delivered_app tr1 tr2 :
  delivered (tr1 ++ tr2) = delivered tr1 ++ delivered tr2.
Proof.
  induction tr1 as [|ev tr1 IH]; simpl; [reflexivity|].
  destruct ev as [k|k|k|e [file|]]; simpl; now rewrite ?IH.
Qed.

Lemma callbacks_invocation ks : callbacks (invocation_trace f ks) = [].
Proof.
  induction ks as [|k ks IH]; simpl; [reflexivity|].
  destruct (f k); simpl; [reflexivity|exact IH].
Qed.

Lemma delivered_invocation ks : delivered (invocation_trace f ks) = [].
Proof.
  induction ks as [|k ks IH]; simpl; [reflexivity|].
  destruct (f k); simpl; [reflexivity|exact IH].
Qed.

(** Only the call of the first failing key throws. *)
Lemma threw_invocation ks k :
  In (TransformThrew k) (invocation_trace f ks)
  <-> exists e, first_error f ks = Some (k, e).
Proof.
  induction ks as [|x ks IH]; simpl.
  - split; [tauto|intros [e He]; discriminate].
  - destruct (f x) as [ex|rx]; simpl.
    + split.
      * intros [H|[H|[]]]; [discriminate|].
        injection H as ->. now exists ex.
      * intros [e He]. injection He as -> _. right; now left.
    + rewrite <- IH. split.
      * intros [H|[H|H]]; [discriminate|discriminate|exact H].
      * intros H. right; now right.
Qed.

(** No call begins while another one is in progress. *)
Lemma overlaps_invocation ks tail :
  overlaps false (invocation_trace f ks ++ tail) = overlaps false tail.
Proof.
  induction ks as [|k ks IH]; simpl; [reflexivity|].
  destruct (f k); simpl; [reflexivity|exact IH].
Qed.

(** The calls that began are those of the keys up to the first failure. *)
Lemma begun_invocation ks :
  exists rest, ks = begun (invocation_trace f ks) ++ rest.
Proof.
  induction ks as [|k ks [rest IH]]; simpl.
  - now exists [].
  - destruct (f k); simpl.
    + now exists ks.
    + exists rest. now rewrite <- IH.
Qed.

Lemma begun_app tr1 tr2 : begun (tr1 ++ tr2) = begun tr1 ++ begun tr2.
Proof.
  induction tr1 as [|ev tr1 IH]; simpl; [reflexivity|].
  destruct ev; simpl; now rewrite ?IH.
Qed.

End Traces.

End TraceFacts.

(* ------------------------------------------------------------------ *)
(** * The properties of the transform of one file *)

Import ObjFacts SourceFacts TraceFacts.

(** C1.  On the source-code path, when the transformer throws for a
    variant, the callback is invoked exactly once, with the error of the
    one transformer call that threw, and no file is delivered: the call
    that throws is that of the first failing variant in key order, and it
    is the given variant whenever no other variant fails. *)
Theorem transform_error_fails_whole_file
  (E : Collaborators) (content : Buffer) (options : TransformOptions)
  (k : string) (e : Error) :
  classify (filename options) = SourcePath ->
  Obj.wf (variants_of options) ->
  In k (Obj.keys (variants_of options)) ->
  answer (toString_utf8 E content) options k = inl e ->
  let code := toString_utf8 E content in
  let ks := Obj.keys (variants_of options) in
  let m := transformModule E content options report in
  exists k0 e0,
    In k0 ks
    /\ answer code options k0 = inl e0
    /\ (forall k', In (TransformThrew k') (trace m) <-> k' = k0)
    /\ callbacks (trace m) = [Callback (Some e0) None]
    /\ delivered (trace m) = []
    /\ outcome m = Normal tt
    /\ ((forall k', In k' ks -> k' <> k ->
           exists r, answer code options k' = inr r) ->
        k0 = k /\ e0 = e).
Proof.
  intros Hpath Hwf Hin Hfail code ks m.
  destruct (first_error_some code options ks k Hin Hfail)
    as (k0 & e0 & before & after & Hfirst & Hk0 & Hks & Hbefore).
  assert (Hm : m = (invocation_trace (answer code options) ks
                      ++ [Callback (Some e0) None], Normal tt)).
  { unfold m. rewrite transformModule_source by assumption.
    fold code. fold ks. now rewrite Hfirst. }
  assert (Hin0 : In k0 ks).
  { rewrite Hks. apply in_or_app. right; now left. }
  exists k0, e0. rewrite Hm. unfold trace, outcome. cbn [fst snd].
  repeat split; trivial.
  - rewrite in_app_iff. intros [H|[H|[]]]; [|discriminate].
    apply threw_invocation in H. destruct H as [e' He'].
    rewrite Hfirst in He'. now injection He' as ->.
  - intros ->. apply in_or_app. left.
    apply threw_invocation. now exists e0.
  - rewrite callbacks_app, callbacks_invocation. reflexivity.
  - rewrite delivered_app, delivered_invocation. reflexivity.
  - destruct (String.string_dec k0 k) as [Heq|Hne]; [exact Heq|].
    destruct (H k0 Hin0 Hne) as [r Hr]. fold code in Hk0. congruence.
  - destruct (String.string_dec k0 k) as [Heq|Hne].
    + subst k0. fold code in Hfail. congruence.
    + destruct (H k0 Hin0 Hne) as [r Hr]. fold code in Hk0. congruence.
Qed.

Ltac wf_list :=
  unfold Obj.wf; simpl; split;
  [ repeat (constructor; [simpl; intuition discriminate|]); constructor
  | intuition discriminate ].

Lemma transform_error_fails_whole_file_witness :
  let m := transformModule Demo.collaborators (Demo.bytes "var a = 1;")
             (Demo.options "a.js" None (Some Demo.failing_variants)) report in
  exists k0 e0,
    In k0 ["debug"; "broken"; "release"]
    /\ answer "var a = 1;"
              (Demo.options "a.js" None (Some Demo.failing_variants)) k0
       = inl e0
    /\ (forall k', In (TransformThrew k') (trace m) <-> k' = k0)
    /\ callbacks (trace m) = [Callback (Some e0) None]
    /\ delivered (trace m) = []
    /\ outcome m = Normal tt
    /\ ((forall k', In k' ["debug"; "broken"; "release"] -> k' <> "broken" ->
           exists r, answer "var a = 1;"
                       (Demo.options "a.js" None (Some Demo.failing_variants))
                       k' = inr r) ->
        k0 = "broken" /\ e0 = mkError "TransformError" "unexpected token").
Proof.
  apply (@transform_error_fails_whole_file Demo.collaborators
           (Demo.bytes "var a = 1;")
           (Demo.options "a.js" None (Some Demo.failing_variants))
           "broken" (mkError "TransformError" "unexpected token")).
  - reflexivity.
  - wf_list.
  - simpl. right; now left.
  - reflexivity.
Defined.

(** What the source-code path delivers when every transformer call
    returns. *)
Lemma transformModule_all_ok E content options :
  classify (filename options) = SourcePath ->
  Obj.wf (variants_of options) ->
  (forall k, In k (Obj.keys (variants_of options)) ->
     exists r, answer (toString_utf8 E content) options k = inr r) ->
  transformModule E content options report
  = (invocation_trace (answer (toString_utf8 E content) options)
                      (Obj.keys (variants_of options))
       ++ [Callback None (Some (module_file E content options))],
     Normal tt)
  /\ map fst (f_transformed (module_file E content options))
     = Obj.keys (variants_of options).
Proof.
  intros Hpath Hwf Hall. split.
  - rewrite transformModule_source by assumption.
    cbv zeta. now rewrite (first_error_none _ _ _ Hall).
  - unfold module_file; cbn [f_transformed].
    now apply flat_map_mk_keys.
Qed.

(** X19.  On the source-code path, when no variant is named [__proto__]
    and every transformer call returns, one file is delivered, and the
    keys of its [transformed] mapping are the keys of the variants
    mapping, the single key [default] when the variants are left out: the
    same keys in the same order, hence the same set whatever the order of
    the entries of the mapping. *)
Theorem transformed_keys_are_variant_keys
  (E : Collaborators) (content : Buffer) (options : TransformOptions) :
  classify (filename options) = SourcePath ->
  Obj.wf (variants_of options) ->
  (forall k, In k (Obj.keys (variants_of options)) ->
     exists r, answer (toString_utf8 E content) options k = inr r) ->
  let m := transformModule E content options report in
  exists file,
    callbacks (trace m) = [Callback None (Some file)]
    /\ delivered (trace m) = [file]
    /\ outcome m = Normal tt
    /\ Obj.keys (f_transformed file) = Obj.keys (variants_of options)
    /\ (forall k, In k (Obj.keys (f_transformed file))
                  <-> In k (map fst (variants_of options)))
    /\ (variants options = None -> Obj.keys (f_transformed file) = ["default"]).
Proof.
  intros Hpath Hwf Hall m.
  destruct (transformModule_all_ok E content options Hpath Hwf Hall)
    as [Hm Hkeys].
  exists (module_file E content options).
  unfold m. rewrite Hm. unfold trace, outcome. cbn [fst snd].
  assert (Hk : Obj.keys (f_transformed (module_file E content options))
               = Obj.keys (variants_of options)).
  { unfold Obj.keys at 1. rewrite Hkeys. apply order_keys_idem. }
  repeat split.
  - rewrite callbacks_app, callbacks_invocation. reflexivity.
  - rewrite delivered_app, delivered_invocation. reflexivity.
  - exact Hk.
  - rewrite Hk. apply keys_In.
  - rewrite Hk. apply keys_In.
  - intros Hnone. rewrite Hk. unfold variants_of. rewrite Hnone. reflexivity.
Qed.

Lemma transformed_keys_are_variant_keys_witness :
  let m := transformModule Demo.collaborators (Demo.bytes "var a = 1;")
             (Demo.options "a.js" None (Some Demo.two_variants)) report in
  exists file,
    callbacks (trace m) = [Callback None (Some file)]
    /\ delivered (trace m) = [file]
    /\ outcome m = Normal tt
    /\ Obj.keys (f_transformed file) = ["debug"; "release"]
    /\ (forall k, In k (Obj.keys (f_transformed file))
                  <-> In k ["debug"; "release"])
    /\ (Some Demo.two_variants = None ->
        Obj.keys (f_transformed file) = ["default"]).
Proof.
  apply (@transformed_keys_are_variant_keys Demo.collaborators
           (Demo.bytes "var a = 1;")
           (Demo.options "a.js" None (Some Demo.two_variants))).
  - reflexivity.
  - wf_list.
  - simpl. intros k [<-|[<-|[]]]; eexists; reflexivity.
Defined.

(** C2.  The code loses a variant named [__proto__]: the assignment
    [tasks[name] = ...] stores no task under that name.  For the variants
    [0] and [__proto__], for both of which the transformer returns, the
    transformer is called for [0] alone and the file delivered has the one
    key [0], not the two keys of the variants. *)
Theorem proto_variant_is_dropped :
  let variants : TransformVariants :=
    [("0", JObject []); ("__proto__", JObject [])] in
  let options := Demo.options "a.js" None (Some variants) in
  let m := transformModule Demo.collaborators (Demo.bytes "var a = 1;")
             options report in
  classify "a.js" = SourcePath
  /\ Obj.keys variants = ["0"; "__proto__"]
  /\ (forall k, In k (Obj.keys variants) ->
        exists r, answer "var a = 1;" options k = inr r)
  /\ begun (trace m) = ["0"]
  /\ outcome m = Normal tt
  /\ exists file,
       delivered (trace m) = [file]
       /\ Obj.keys (f_transformed file) = ["0"]
       /\ Obj.keys (f_transformed file) <> Obj.keys variants.
Proof.
  cbv zeta. repeat split; try reflexivity.
  - simpl. intros k [<-|[<-|[]]]; eexists; reflexivity.
  - eexists. split; [reflexivity|]. split; [reflexivity|discriminate].
Qed.

(** C3.  The tree [wrapModule] builds has one top-level statement: the
    call of [__d] on one argument, a function expression with the
    parameters [global], [require], [module], [exports] and the name of
    the dependency map, in this order, whose body holds the statements and
    the directives of the program it is given, as they are.  For a variant
    that is not a polyfill, the generated code is that of this tree, built
    from the tree and the name [collectDependencies] leaves. *)
Theorem wrapModule_registers_factory
  (E : Collaborators) (file : File) (dependencyMapName : string) :
  wrapModule file dependencyMapName
  = mkFile (mkProgram
      [ExpressionStatement
         (CallExpression (Identifier "__d")
            [FunctionExpression (Identifier EmptyString)
               [Identifier "global"; Identifier "require";
                Identifier "module"; Identifier "exports";
                Identifier dependencyMapName]
               (mkBlockStatement (body (program file))
                                 (directives (program file)))])]
      [] []) []
  /\ forall filename sourceCode isPolyfill,
       isPolyfill = None \/ isPolyfill = Some false ->
       let cd := collectDependencies E file in
       let r := makeResult E file filename sourceCode isPolyfill in
       r_code r
       = g_code (generate E (wrapModule (cd_ast cd) (cd_dependencyMapName cd))
                          filename sourceCode)
       /\ r_dependencies r = cd_dependencies cd
       /\ r_dependencyMapName r = Some (cd_dependencyMapName cd).
Proof.
  split; [reflexivity|].
  intros filename sourceCode isPolyfill [->| ->]; cbv zeta;
    repeat split; reflexivity.
Qed.

Lemma wrapModule_registers_factory_witness :
  wrapModule (Demo.tree "var a = 1;") "_dependencyMap"
  = mkFile (mkProgram
      [ExpressionStatement
         (CallExpression (Identifier "__d")
            [FunctionExpression (Identifier EmptyString)
               [Identifier "global"; Identifier "require";
                Identifier "module"; Identifier "exports";
                Identifier "_dependencyMap"]
               (mkBlockStatement [SourceStatement (JString "var a = 1;")]
                                 [mkDirective "use strict"])])]
      [] []) []
  /\ r_dependencyMapName
       (makeResult Demo.collaborators (Demo.tree "var a = 1;") "a.js"
                   "var a = 1;" None)
     = Some "_dependencyMap".
Proof.
  destruct (@wrapModule_registers_factory Demo.collaborators
              (Demo.tree "var a = 1;") "_dependencyMap") as [Hshape Hres].
  split; [exact Hshape|].
  exact (proj2 (proj2 (Hres "a.js" "var a = 1;" None (or_introl eq_refl)))).
Defined.

(* ------------------------------------------------------------------ *)
(** * The parser of JSON texts *)

Module JsonParseFacts.
Import Json.

Lemma skip_ws_len s : String.length (skip_ws s) <= String.length s.
Proof.
  induction s as [|c s IH]; simpl; [lia|].
  destruct (is_ws c); simpl; lia.
Qed.

Lemma strip_prefix_len p : forall s r,
  strip_prefix p s = Some r -> String.length r + String.length p = String.length s.
Proof.
  induction p as [|a p IH]; intros s r; simpl.
  - intros H; injection H as ->. lia.
  - destruct s as [|b s]; [discriminate|].
    destruct (Ascii.eqb a b); [|discriminate].
    intros H. apply IH in H. simpl. lia.
Qed.

Lemma span_digits_len s : forall d r,
  span_digits s = (d, r) -> String.length d + String.length r = String.length s.
Proof.
  induction s as [|c s IH]; intros d r; simpl.
  - intros H; injection H as <- <-. reflexivity.
  - destruct (is_digit c).
    + destruct (span_digits s) as [d' r'] eqn:Hs.
      intros H; injection H as <- <-. simpl. specialize (IH _ _ eq_refl). lia.
    + intros H; injection H as <- <-. reflexivity.
Qed.

Lemma append_len a b : String.length (a +++ b) = String.length a + String.length b.
Proof. induction a; simpl; congruence. Qed.

Lemma string_body_len s : forall acc str r,
  string_body s acc = Some (str, r) -> String.length r < String.length s.
Proof.
  induction s as [s IH] using (well_founded_induction
    (Wf_nat.well_founded_ltof _ String.length)).
  unfold Wf_nat.ltof in IH.
  intros acc str r. destruct s as [|c rest]; simpl; [discriminate|].
  destruct (N_of_ascii c =? 34)%N.
  { intros H; injection H as _ <-. lia. }
  destruct (N_of_ascii c =? 92)%N.
  { destruct rest as [|e rest1]; [discriminate|].
    destruct (simple_escape e).
    - intros H. apply IH in H; simpl in *; lia.
    - destruct (N_of_ascii e =? 117)%N; [|discriminate].
      destruct rest1 as [|h1 [|h2 [|h3 [|h4 rest2]]]]; try discriminate.
      destruct (hex4 h1 h2 h3 h4); [|discriminate].
      intros H. apply IH in H; simpl in *; lia. }
  destruct (N_of_ascii c <? 32)%N; [discriminate|].
  intros H. apply IH in H; simpl in *; lia.
Qed.

Lemma number_len s lex r : number s = Some (lex, r) -> String.length r < String.length s.
Proof.
  unfold number.
  destruct (match s with
            | String c r0 => if Ascii.eqb c minus_sign then ("-", r0) else ("", s)
            | EmptyString => ("", s)
            end) as [sign s1] eqn:Hsign.
  assert (H1 : String.length s1 <= String.length s).
  { destruct s as [|c r0]; [injection Hsign as <- <-; lia|].
    destruct (Ascii.eqb c minus_sign); injection Hsign as <- <-; simpl; lia. }
  destruct (span_digits s1) as [int s2] eqn:Hint.
  apply span_digits_len in Hint.
  destruct int as [|c0 int']; simpl; [discriminate|].
  match goal with |- (if negb ?b then _ else _) = _ -> _ => destruct b end;
    simpl; [|discriminate].
  simpl in Hint.
  match goal with |- match ?X with _ => _ end = _ -> _ =>
    destruct X as [[fr s3]|] eqn:Hfr end; [|discriminate].
  assert (H3 : String.length s3 <= String.length s2).
  { destruct s2 as [|c r0]; [injection Hfr as <- <-; lia|].
    destruct (Ascii.eqb c "."%char).
    - destruct (span_digits r0) as [d r'] eqn:Hd.
      apply span_digits_len in Hd.
      destruct d; [discriminate|]. injection Hfr as <- <-. simpl in *; lia.
    - injection Hfr as <- <-. lia. }
  match goal with |- match ?X with _ => _ end = _ -> _ =>
    destruct X as [[ex s4]|] eqn:Hex end; [|discriminate].
  assert (H4 : String.length s4 <= String.length s3).
  { destruct s3 as [|c r0]; [injection Hex as <- <-; lia|].
    destruct (Ascii.eqb c "e"%char || Ascii.eqb c "E"%char).
    - destruct (match r0 with
                | String c' r' =>
                    if Ascii.eqb c' minus_sign || Ascii.eqb c' plus_sign
                    then (String c' "", r') else ("", r0)
                | EmptyString => ("", r0)
                end) as [sg r1] eqn:Hsg.
      assert (String.length r1 <= String.length r0).
      { destruct r0 as [|c' r']; [injection Hsg as <- <-; lia|].
        destruct (Ascii.eqb c' minus_sign || Ascii.eqb c' plus_sign);
          injection Hsg as <- <-; simpl; lia. }
      destruct (span_digits r1) as [d r2] eqn:Hd.
      apply span_digits_len in Hd.
      destruct d; [discriminate|]. injection Hex as <- <-. simpl in *; lia.
    - injection Hex as <- <-. lia. }
  intros H; injection H as _ <-. lia.
Qed.

Lemma skip_ws_cons s c r : skip_ws s = String c r -> String.length r < String.length s.
Proof. intros H. pose proof (skip_ws_len s). rewrite H in *. simpl in *. lia. Qed.

Lemma value_unfold fuel s :
  value (S fuel) s =
      match skip_ws s with
      | EmptyString => None
      | String c rest as s' =>
          let n := N_of_ascii c in
          if (n =? 34)%N then
            match string_body rest "" with
            | Some (str, r) => Some (JString str, r)
            | None => None
            end
          else if (n =? 91)%N then
            match skip_ws rest with
            | String c' r' =>
                if (N_of_ascii c' =? 93)%N then Some (JArray [], r')
                else match elements fuel rest [] with
                     | Some (l, r) => Some (JArray l, r)
                     | None => None
                     end
            | EmptyString => None
            end
          else if (n =? 123)%N then
            match skip_ws rest with
            | String c' r' =>
                if (N_of_ascii c' =? 125)%N then Some (JObject [], r')
                else match members fuel rest [] with
                     | Some (o, r) => Some (JObject o, r)
                     | None => None
                     end
            | EmptyString => None
            end
          else
            match strip_prefix "null" s' with
            | Some r => Some (JNull, r)
            | None =>
            match strip_prefix "true" s' with
            | Some r => Some (JBool true, r)
            | None =>
            match strip_prefix "false" s' with
            | Some r => Some (JBool false, r)
            | None =>
            match number s' with
            | Some (lex, r) => Some (JNumber lex, r)
            | None => None
            end end end end
      end.
Proof. reflexivity. Qed.

Lemma elements_unfold fuel s acc :
  elements (S fuel) s acc =
      match value fuel s with
      | None => None
      | Some (v, r) =>
          match skip_ws r with
          | String c r' =>
              if (N_of_ascii c =? 44)%N then elements fuel r' (acc ++ [v])
              else if (N_of_ascii c =? 93)%N then Some ((acc ++ [v]), r')
              else None
          | EmptyString => None
          end
      end.
Proof. reflexivity. Qed.

Lemma members_unfold fuel s acc :
  members (S fuel) s acc =
      match skip_ws s with
      | String q r0 =>
          if negb (N_of_ascii q =? 34)%N then None else
          match string_body r0 "" with
          | None => None
          | Some (key, r1) =>
              match skip_ws r1 with
              | String colon r2 =>
                  if negb (N_of_ascii colon =? 58)%N then None else
                  match value fuel r2 with
                  | None => None
                  | Some (v, r3) =>
                      match skip_ws r3 with
                      | String c r4 =>
                          if (N_of_ascii c =? 44)%N
                          then members fuel r4 (Obj.define acc key v)
                          else if (N_of_ascii c =? 125)%N
                          then Some (Obj.define acc key v, r4)
                          else None
                      | EmptyString => None
                      end
                  end
              | EmptyString => None
              end
          end
      | EmptyString => None
      end.
Proof. reflexivity. Qed.

Lemma consumed fuel :
  (forall s v r, value fuel s = Some (v, r) -> String.length r < String.length s)
  /\ (forall s acc l r, elements fuel s acc = Some (l, r) -> String.length r < String.length s)
  /\ (forall s acc o r, members fuel s acc = Some (o, r) -> String.length r < String.length s).
Proof.
  induction fuel as [|fuel (IHv & IHe & IHm)].
  - repeat split; intros; discriminate.
  - split; [|split].
    + intros s v r. rewrite value_unfold.
      destruct (skip_ws s) as [|c rest] eqn:Hs; [discriminate|].
      apply skip_ws_cons in Hs. cbv zeta.
      destruct (N_of_ascii c =? 34)%N.
      { destruct (string_body rest "") as [[str r0]|] eqn:Hb; [|discriminate].
        apply string_body_len in Hb. intros H; injection H as _ <-. lia. }
      destruct (N_of_ascii c =? 91)%N.
      { destruct (skip_ws rest) as [|c' r'] eqn:Hr; [discriminate|].
        apply skip_ws_cons in Hr.
        destruct (N_of_ascii c' =? 93)%N.
        - intros H; injection H as _ <-. lia.
        - destruct (elements fuel rest []) as [[l r0]|] eqn:He; [|discriminate].
          apply IHe in He. intros H; injection H as _ <-. lia. }
      destruct (N_of_ascii c =? 123)%N.
      { destruct (skip_ws rest) as [|c' r'] eqn:Hr; [discriminate|].
        apply skip_ws_cons in Hr.
        destruct (N_of_ascii c' =? 125)%N.
        - intros H; injection H as _ <-. lia.
        - destruct (members fuel rest []) as [[l r0]|] eqn:He; [|discriminate].
          apply IHm in He. intros H; injection H as _ <-. lia. }
      destruct (strip_prefix "null" (String c rest)) as [r0|] eqn:H1.
      { apply strip_prefix_len in H1. intros H; injection H as _ <-.
        simpl in *; lia. }
      destruct (strip_prefix "true" (String c rest)) as [r0|] eqn:H2.
      { apply strip_prefix_len in H2. intros H; injection H as _ <-.
        simpl in *; lia. }
      destruct (strip_prefix "false" (String c rest)) as [r0|] eqn:H3.
      { apply strip_prefix_len in H3. intros H; injection H as _ <-.
        simpl in *; lia. }
      destruct (number (String c rest)) as [[lex r0]|] eqn:H4; [|discriminate].
      apply number_len in H4. intros H; injection H as _ <-. simpl in *; lia.
    + intros s acc l r. rewrite elements_unfold.
      destruct (value fuel s) as [[v r0]|] eqn:Hv; [|discriminate].
      apply IHv in Hv.
      destruct (skip_ws r0) as [|c r'] eqn:Hr; [discriminate|].
      apply skip_ws_cons in Hr.
      destruct (N_of_ascii c =? 44)%N.
      { intros H. apply IHe in H. lia. }
      destruct (N_of_ascii c =? 93)%N; [|discriminate].
      intros H; injection H as _ <-. lia.
    + intros s acc o r. rewrite members_unfold.
      destruct (skip_ws s) as [|q r0] eqn:Hs; [discriminate|].
      apply skip_ws_cons in Hs.
      destruct (negb (N_of_ascii q =? 34)%N); [discriminate|].
      destruct (string_body r0 "") as [[key r1]|] eqn:Hb; [|discriminate].
      apply string_body_len in Hb.
      destruct (skip_ws r1) as [|colon r2] eqn:Hc; [discriminate|].
      apply skip_ws_cons in Hc.
      destruct (negb (N_of_ascii colon =? 58)%N); [discriminate|].
      destruct (value fuel r2) as [[v r3]|] eqn:Hv; [|discriminate].
      apply IHv in Hv.
      destruct (skip_ws r3) as [|c r4] eqn:Hr; [discriminate|].
      apply skip_ws_cons in Hr.
      destruct (N_of_ascii c =? 44)%N.
      { intros H. apply IHm in H. lia. }
      destruct (N_of_ascii c =? 125)%N; [|discriminate].
      intros H; injection H as _ <-. lia.
Qed.

(** One more unit of fuel changes nothing once there is enough. *)
Lemma fuel_step fuel :
  (forall s, 2 * String.length s + 2 <= fuel -> value (S fuel) s = value fuel s)
  /\ (forall s acc, 2 * String.length s + 3 <= fuel ->
        elements (S fuel) s acc = elements fuel s acc)
  /\ (forall s acc, 2 * String.length s + 3 <= fuel ->
        members (S fuel) s acc = members fuel s acc).
Proof.
  induction fuel as [|fuel (IHv & IHe & IHm)].
  - repeat split; intros; lia.
  - destruct (consumed fuel) as (Cv & _ & _).
    split; [|split].
    + intros s Hs. rewrite (value_unfold (S fuel)), (value_unfold fuel).
      destruct (skip_ws s) as [|c rest] eqn:Hws; [reflexivity|].
      apply skip_ws_cons in Hws. cbv zeta.
      rewrite IHe by lia. rewrite IHm by lia. reflexivity.
    + intros s acc Hs.
      rewrite (elements_unfold (S fuel)), (elements_unfold fuel).
      rewrite IHv by lia.
      destruct (value fuel s) as [[v r0]|] eqn:Hv; [|reflexivity].
      apply Cv in Hv.
      destruct (skip_ws r0) as [|c r'] eqn:Hr; [reflexivity|].
      apply skip_ws_cons in Hr.
      rewrite IHe by lia. reflexivity.
    + intros s acc Hs.
      rewrite (members_unfold (S fuel)), (members_unfold fuel).
      destruct (skip_ws s) as [|q r0] eqn:Hws; [reflexivity|].
      apply skip_ws_cons in Hws.
      destruct (negb (N_of_ascii q =? 34)%N); [reflexivity|].
      destruct (string_body r0 "") as [[key r1]|] eqn:Hb; [|reflexivity].
      apply string_body_len in Hb.
      destruct (skip_ws r1) as [|colon r2] eqn:Hc; [reflexivity|].
      apply skip_ws_cons in Hc.
      destruct (negb (N_of_ascii colon =? 58)%N); [reflexivity|].
      rewrite IHv by lia.
      destruct (value fuel r2) as [[v r3]|] eqn:Hv; [|reflexivity].
      apply Cv in Hv.
      destruct (skip_ws r3) as [|c r4] eqn:Hr; [reflexivity|].
      apply skip_ws_cons in Hr.
      rewrite IHm by lia. reflexivity.
Qed.

(** The fuel [parse] gives is enough: more of it gives the same value. *)
Lemma parse_fuel_enough text extra :
  value (2 * String.length text + 2 + extra) text = value (2 * String.length text + 2) text.
Proof.
  induction extra as [|extra IH].
  - now rewrite Nat.add_0_r.
  - rewrite Nat.add_succ_r. rewrite (proj1 (fuel_step _)) by lia. exact IH.
Qed.

End JsonParseFacts.

(* ------------------------------------------------------------------ *)
(** * The JSON path *)

Module JsonFacts.

Lemma get_define V (o : jsobj V) k v k' :
  Obj.get (Obj.define o k v) k'
  = if String.eqb k k' then Some v else Obj.get o k'.
Proof.
  induction o as [|[x w] o IH]; simpl.
  - reflexivity.
  - destruct (String.eqb_spec x k) as [->|Hxk]; simpl.
    + destruct (String.eqb_spec k k'); reflexivity.
    + destruct (String.eqb_spec x k') as [->|Hxk'].
      * destruct (String.eqb_spec k k'); [congruence|reflexivity].
      * exact IH.
Qed.

(** What is read after an assignment. *)
Lemma get_set V (o : jsobj V) k v k' :
  Obj.get (Obj.set o k v) k'
  = if String.eqb k k' && negb (String.eqb k "__proto__")
    then Some v else Obj.get o k'.
Proof.
  unfold Obj.set. destruct (String.eqb k "__proto__"); simpl.
  - now rewrite andb_false_r.
  - now rewrite andb_true_r, get_define.
Qed.

(** The object in which every key of a list is assigned the same
    value. *)
Lemma get_fold_set_const V (d : V) ks : forall (acc : jsobj V) k,
  Obj.get (fold_left (fun o x => Obj.set o x d) ks acc) k
  = if existsb (String.eqb k) (Obj.stored ks) then Some d else Obj.get acc k.
Proof.
  induction ks as [|x ks IH]; intros acc k; simpl; [reflexivity|].
  rewrite IH, get_set.
  destruct (String.eqb x "__proto__"); simpl.
  - now rewrite andb_false_r.
  - rewrite andb_true_r, (String.eqb_sym k x).
    destruct (existsb (String.eqb k) (Obj.stored ks)), (String.eqb x k);
      reflexivity.
Qed.

Lemma In_stored k ks : In k (Obj.stored ks) <-> In k ks /\ k <> "__proto__".
Proof.
  unfold Obj.stored. rewrite filter_In. split; intros [Hin Hk]; split; trivial.
  - intros ->. discriminate.
  - destruct (String.eqb_spec k "__proto__"); [contradiction|reflexivity].
Qed.

Lemma stored_proto_free ks : ~ In "__proto__" ks -> Obj.stored ks = ks.
Proof.
  unfold Obj.stored. induction ks as [|k ks IH]; simpl; [reflexivity|].
  intros H. destruct (String.eqb_spec k "__proto__") as [->|_]; simpl.
  - exfalso. apply H. now left.
  - f_equal. apply IH. intros Hin. apply H. now right.
Qed.

Lemma existsb_eqb_In k ks : existsb (String.eqb k) ks = true <-> In k ks.
Proof.
  rewrite existsb_exists. split.
  - intros (x & Hin & Heq). apply String.eqb_eq in Heq. now subst.
  - intros Hin. exists k. split; [exact Hin|apply String.eqb_refl].
Qed.

Lemma stored_app ks1 ks2 :
  Obj.stored (ks1 ++ ks2) = Obj.stored ks1 ++ Obj.stored ks2.
Proof. apply filter_app. Qed.

Lemma index_keys_stored ks :
  Obj.index_keys (Obj.stored ks) = Obj.index_keys ks.
Proof.
  unfold Obj.stored. induction ks as [|k ks IH]; simpl; [reflexivity|].
  destruct (String.eqb_spec k "__proto__") as [->|_]; simpl.
  - exact IH.
  - destruct (Obj.array_index k); now rewrite IH.
Qed.

Lemma name_keys_stored ks :
  Obj.name_keys (Obj.stored ks) = Obj.stored (Obj.name_keys ks).
Proof.
  unfold Obj.stored, Obj.name_keys.
  induction ks as [|k ks IH]; simpl; [reflexivity|].
  destruct (negb (String.eqb k "__proto__")) eqn:Hp,
           (negb (Obj.is_index k)) eqn:Hi; simpl;
    rewrite ?Hp, ?Hi, IH; reflexivity.
Qed.

Lemma stored_keyed l :
  Forall Obj.keyed l -> Obj.stored (map snd l) = map snd l.
Proof.
  intros H. apply stored_proto_free. rewrite in_map_iff.
  intros ([n k] & Hk & Hin). simpl in Hk. subst k.
  rewrite Forall_forall in H. specialize (H _ Hin).
  unfold Obj.keyed in H. simpl in H. discriminate.
Qed.

(** Dropping [__proto__] from keys and ordering them commute. *)
Lemma order_keys_stored ks :
  Obj.order_keys (Obj.stored ks) = Obj.stored (Obj.order_keys ks).
Proof.
  unfold Obj.order_keys.
  rewrite index_keys_stored, name_keys_stored, stored_app.
  rewrite stored_keyed; [reflexivity|].
  apply sort_index_keyed, index_keys_keyed.
Qed.

Lemma NoDup_stored ks : NoDup ks -> NoDup (Obj.stored ks).
Proof. apply NoDup_filter. Qed.

(** Assigning under the keys of a list stores the keys other than
    [__proto__], in order. *)
Lemma fold_set_stored V (f : string -> V) ks : forall (o : jsobj V),
  NoDup ks ->
  (forall k, In k ks -> ~ In k (map fst o)) ->
  fold_left (fun acc k => Obj.set acc k (f k)) ks o
  = o ++ map (fun k => (k, f k)) (Obj.stored ks).
Proof.
  induction ks as [|k ks IH]; simpl; intros o Hnd Hfresh.
  - now rewrite app_nil_r.
  - inversion Hnd as [|? ? Hk Hnd']; subst.
    destruct (String.eqb_spec k "__proto__") as [->|Hkp]; simpl.
    + apply IH; trivial. intros k' Hin. apply Hfresh. now right.
    + rewrite set_fresh; [|exact Hkp|apply Hfresh; now left].
      rewrite IH; trivial.
      * now rewrite <- app_assoc.
      * intros k' Hin. rewrite map_app, in_app_iff; simpl.
        intros [H|[H|[]]].
        -- apply (Hfresh k'); [now right|exact H].
        -- subst; contradiction.
Qed.

(** The [transformed] mapping of a JSON file: every key of the variants
    other than [__proto__] has the one module data, and there is nothing
    else. *)
Lemma json_transformed (d : TransformResult) (vs : TransformVariants) k :
  let transformed :=
    fold_left (fun o x => Obj.set o x d) (Obj.keys vs) [] in
  (In k (Obj.keys vs) -> k <> "__proto__" -> Obj.get transformed k = Some d)
  /\ (forall r, Obj.get transformed k = Some r ->
        r = d /\ In k (Obj.keys vs) /\ k <> "__proto__").
Proof.
  cbv zeta. rewrite get_fold_set_const.
  destruct (existsb (String.eqb k) (Obj.stored (Obj.keys vs))) eqn:Hmem.
  - apply existsb_eqb_In, In_stored in Hmem. split; [reflexivity|].
    intros r Hr. injection Hr as <-. now split.
  - split.
    + intros Hin Hk.
      assert (H : In k (Obj.stored (Obj.keys vs))) by now apply In_stored.
      apply existsb_eqb_In in H. congruence.
    + simpl. discriminate.
Qed.

(** [JSON.parse] throws nothing but a [SyntaxError]. *)
Lemma parse_error text e :
  Json.parse text = inl e -> error_name e = "SyntaxError".
Proof.
  unfold Json.parse.
  destruct (Json.value _ text) as [[v r]|]; [destruct (Json.skip_ws r)|];
    intros H; inversion H; reflexivity.
Qed.

End JsonFacts.

Import JsonFacts.

(** X18.  For a JSON file whose text parses to a value other than
    [null], one file is delivered, of type [module]; every key of the
    variants other than [__proto__] has the same module data and the
    mapping has nothing else;
    the code of the module data is the one registration statement of a
    factory that assigns to [module.exports], with the text of the file as
    it is after the assignment; there is no source map; and [hasteID] is
    the [name] property of the parsed value, [undefined] when the value
    has none. *)
Theorem json_module_data_shared
  (E : Collaborators) (content : Buffer) (options : TransformOptions)
  (value : json) :
  classify (filename options) = JsonPath ->
  Json.parse (toString_utf8 E content) = inr value ->
  value <> JNull ->
  let text := toString_utf8 E content in
  let moduleData := {|
    r_code := "__d(function(global, require, module, exports) { module.exports = "
              +++ newline +++ text +++ newline +++ "});";
    r_map := None;
    r_dependencies := [];
    r_dependencyMapName := None
  |} in
  exists file,
    transformModule E content options report
    = ([Callback None (Some file)], Normal tt)
    /\ f_type file = "module"
    /\ f_code file = text
    /\ (forall k, In k (Obj.keys (variants_of options)) ->
          k <> "__proto__" ->
          Obj.get (f_transformed file) k = Some moduleData)
    /\ (forall k r, Obj.get (f_transformed file) k = Some r ->
          r = moduleData /\ In k (Obj.keys (variants_of options))
          /\ k <> "__proto__")
    /\ f_hasteID file
       = match value with
         | JObject props => Obj.get props "name"
         | _ => None
         end.
Proof.
  intros Hpath Hparse Hnull text moduleData.
  unfold classify in Hpath. unfold transformModule.
  destruct (Str.endsWith (filename options) ".png"); [discriminate|].
  destruct (Str.endsWith (filename options) ".json"); [|discriminate].
  unfold transformJSON. fold text. unfold text at 1. rewrite Hparse.
  fold (variants_of options).
  assert (Hname : member value "name"
                  = ret (match value with
                         | JObject props => Obj.get props "name"
                         | _ => None
                         end)).
  { destruct value; try reflexivity. congruence. }
  assert (Hother : forall key, exists v, member value key = ret v).
  { intros key. destruct value; try (eexists; reflexivity). congruence. }
  rewrite Hname, bind_ret_l.
  destruct (String.eqb (Str.basename (filename options)) "package.json").
  - destruct (Hother "main") as [main ->].
    destruct (Hother "browser") as [browser ->].
    destruct (Hother "react-native") as [rn ->].
    rewrite !bind_ret_l.
    eexists. split; [reflexivity|]. cbn [f_type f_code f_transformed f_hasteID].
    split; [reflexivity|]. split; [reflexivity|].
    split; [|split; [|reflexivity]].
    + intros k.
      exact (proj1 (json_transformed moduleData (variants_of options) k)).
    + intros k.
      exact (proj2 (json_transformed moduleData (variants_of options) k)).
  - eexists. split; [reflexivity|]. cbn [f_type f_code f_transformed f_hasteID].
    split; [reflexivity|]. split; [reflexivity|].
    split; [|split; [|reflexivity]].
    + intros k.
      exact (proj1 (json_transformed moduleData (variants_of options) k)).
    + intros k.
      exact (proj2 (json_transformed moduleData (variants_of options) k)).
Qed.

Lemma json_module_data_shared_witness :
  exists file,
    transformModule Demo.collaborators (Demo.bytes Demo.manifest_text)
      (Demo.options "foo.json" None None) report
    = ([Callback None (Some file)], Normal tt)
    /\ f_type file = "module"
    /\ f_code file = Demo.manifest_text
    /\ Obj.get (f_transformed file) "default"
       = Some {|
           r_code := "__d(function(global, require, module, exports) { module.exports = "
                     +++ newline +++ Demo.manifest_text +++ newline +++ "});";
           r_map := None;
           r_dependencies := [];
           r_dependencyMapName := None
         |}
    /\ f_hasteID file = Some (JString "pkg").
Proof.
  destruct (@json_module_data_shared Demo.collaborators
              (Demo.bytes Demo.manifest_text)
              (Demo.options "foo.json" None None)
              (JObject [("name", JString "pkg");
                        ("main", JString "index.js")]))
    as (file & Hrun & Htype & Hcode & Hget & _ & Hid).
  - reflexivity.
  - reflexivity.
  - discriminate.
  - exists file. repeat split; trivial.
    apply Hget; [simpl; now left|discriminate].
Defined.

(** C4.  The code fails the claim for the text [null]: it parses, the
    read of [value.name] throws a [TypeError], the callback is not invoked
    and no variant receives anything. *)
Lemma json_null_delivers_nothing :
  let m := transformModule Demo.collaborators (Demo.bytes "null")
             (Demo.options "data.json" None None) report in
  classify "data.json" = JsonPath
  /\ Json.parse (toString_utf8 Demo.collaborators (Demo.bytes "null"))
     = inr JNull
  /\ m = ([], Throw (TypeError "Cannot read property 'name' of null"))
  /\ ~ (exists file, In file (delivered (trace m))).
Proof.
  cbv zeta. repeat split; try reflexivity.
  intros [file []].
Qed.

(* ------------------------------------------------------------------ *)
(** * The asset path *)

(** C5.  For a file routed to the asset path, one file is delivered, of
    type [asset], with an empty [transformed] mapping, empty [code], a
    [null] [hasteID], and as [assetContent] a text whose base64 decoding
    is the content of the file, byte for byte. *)
Theorem asset_content_round_trip
  (E : Collaborators) (content : Buffer) (options : TransformOptions) :
  classify (filename options) = AssetPath ->
  exists file text,
    transformModule E content options report
    = ([Callback None (Some file)], Normal tt)
    /\ f_type file = "asset"
    /\ f_transformed file = []
    /\ f_code file = EmptyString
    /\ f_hasteID file = Some JNull
    /\ f_package file = None
    /\ f_assetContent file = Some text
    /\ Base64.decode text = Some content.
Proof.
  intros Hpath. unfold classify in Hpath. unfold transformModule.
  destruct (Str.endsWith (filename options) ".png").
  - unfold transformAsset, report, emit.
    eexists. exists (Base64.encode content).
    repeat split. apply Base64Facts.decode_encode.
  - destruct (Str.endsWith (filename options) ".json"); discriminate.
Qed.

Lemma asset_content_round_trip_witness :
  exists file text,
    transformModule Demo.collaborators (Demo.bytes "Many hands")
      (Demo.options "icon.png" None None) report
    = ([Callback None (Some file)], Normal tt)
    /\ f_type file = "asset"
    /\ f_transformed file = []
    /\ f_code file = EmptyString
    /\ f_hasteID file = Some JNull
    /\ f_package file = None
    /\ f_assetContent file = Some text
    /\ Base64.decode text = Some (Demo.bytes "Many hands").
Proof.
  apply (@asset_content_round_trip Demo.collaborators
           (Demo.bytes "Many hands") (Demo.options "icon.png" None None)).
  reflexivity.
Defined.

(* ------------------------------------------------------------------ *)
(** * Polyfills *)

(** C6.  For a polyfill, [makeResult] gives no dependencies and the code
    generated for a tree of one statement: the call, on the one argument
    [this], of a function expression with the one parameter [global] whose
    body is the program.  On the source-code path with [polyfill] set,
    when every transformer call returns, the file delivered is a [script]
    and the result of every variant is of this form. *)
Theorem polyfill_wrapper_and_dependencies
  (E : Collaborators) (content : Buffer) (options : TransformOptions) :
  (forall ast filename sourceCode,
     let wrapped :=
       mkFile (mkProgram
         [ExpressionStatement
            (CallExpression
               (FunctionExpression (Identifier EmptyString)
                  [Identifier "global"]
                  (mkBlockStatement (body (program ast))
                                    (directives (program ast))))
               [Identifier "this"])]
         [] []) [] in
     wrapPolyfill ast = wrapped
     /\ makeResult E ast filename sourceCode (Some true)
        = {| r_code := g_code (generate E wrapped filename sourceCode);
             r_map := g_map (generate E wrapped filename sourceCode);
             r_dependencies := [];
             r_dependencyMapName := None |})
  /\ (classify (filename options) = SourcePath ->
      Obj.wf (variants_of options) ->
      polyfill options = Some true ->
      (forall k, In k (Obj.keys (variants_of options)) ->
         exists r, answer (toString_utf8 E content) options k = inr r) ->
      let code := toString_utf8 E content in
      let m := transformModule E content options report in
      exists file,
        delivered (trace m) = [file]
        /\ outcome m = Normal tt
        /\ f_type file = "script"
        /\ map fst (f_transformed file) = Obj.keys (variants_of options)
        /\ forall k r, In (k, r) (f_transformed file) ->
             r_dependencies r = []
             /\ exists tr,
                  answer code options k = inr tr
                  /\ r = makeResult E (ast tr) (filename options) code
                                    (Some true)).
Proof.
  split.
  - intros ast filename sourceCode wrapped. split; reflexivity.
  - intros Hpath Hwf Hpoly Hall code m.
    destruct (transformModule_all_ok E content options Hpath Hwf Hall)
      as [Hm Hkeys].
    exists (module_file E content options).
    unfold m. rewrite Hm. unfold trace, outcome. cbn [fst snd].
    split; [|split; [reflexivity|split; [|split; [exact Hkeys|]]]].
    + rewrite delivered_app, delivered_invocation. reflexivity.
    + unfold module_file; cbn [f_type]. now rewrite Hpoly.
    + intros k r Hin. unfold module_file in Hin; cbn [f_transformed] in Hin.
      apply in_flat_map in Hin. destruct Hin as (x & Hx & Hxr).
      fold code in Hxr.
      destruct (answer code options x) as [e|tr] eqn:Hans; [destruct Hxr|].
      destruct Hxr as [Heq|[]]. injection Heq as -> <-.
      rewrite Hpoly. split; [reflexivity|].
      exists tr. split; [exact Hans|reflexivity].
Qed.

Lemma polyfill_wrapper_and_dependencies_witness :
  let options := Demo.options "shim.js" (Some true) (Some Demo.two_variants) in
  let m := transformModule Demo.collaborators (Demo.bytes "var a = 1;")
             options report in
  exists file,
    delivered (trace m) = [file]
    /\ outcome m = Normal tt
    /\ f_type file = "script"
    /\ map fst (f_transformed file) = ["debug"; "release"]
    /\ forall k r, In (k, r) (f_transformed file) ->
         r_dependencies r = []
         /\ exists tr,
              answer "var a = 1;" options k = inr tr
              /\ r = makeResult Demo.collaborators (ast tr) "shim.js"
                                "var a = 1;" (Some true).
Proof.
  apply (proj2 (@polyfill_wrapper_and_dependencies Demo.collaborators
                  (Demo.bytes "var a = 1;")
                  (Demo.options "shim.js" (Some true)
                                (Some Demo.two_variants)))).
  - reflexivity.
  - wf_list.
  - reflexivity.
  - simpl. intros k [<-|[<-|[]]]; eexists; reflexivity.
Defined.

(* ------------------------------------------------------------------ *)
(** * The choice of the path *)

(** C7 (as amended).  The path is a function of the filename alone, and
    one of three: a filename that ends in [.png] takes the asset path, any
    other filename that ends in [.json] the JSON path, and every other
    filename the source-code path, where the transformer is called. *)
Theorem path_chosen_by_suffix
  (E : Collaborators) (content : Buffer) (options : TransformOptions)
  (callback : Callback_t) :
  (Str.endsWith (filename options) ".png" = true ->
     classify (filename options) = AssetPath
     /\ transformModule E content options callback
        = transformAsset content options callback)
  /\ (Str.endsWith (filename options) ".png" = false ->
      Str.endsWith (filename options) ".json" = true ->
        classify (filename options) = JsonPath
        /\ transformModule E content options callback
           = transformJSON (toString_utf8 E content) options callback)
  /\ (Str.endsWith (filename options) ".png" = false ->
      Str.endsWith (filename options) ".json" = false ->
        classify (filename options) = SourcePath
        /\ (Obj.wf (variants_of options) ->
            exists last,
              transformModule E content options report
              = (invocation_trace
                   (answer (toString_utf8 E content) options)
                   (Obj.keys (variants_of options)) ++ [last],
                 Normal tt)
              /\ is_callback last = true)).
Proof.
  unfold classify, transformModule.
  split; [|split].
  - intros ->. split; reflexivity.
  - intros -> ->. split; reflexivity.
  - intros Hpng Hjson.
    split; [now rewrite Hpng, Hjson|].
    intros Hwf.
    assert (Hpath : classify (filename options) = SourcePath)
      by (unfold classify; now rewrite Hpng, Hjson).
    pose proof (transformModule_source E content options Hpath Hwf) as Hrun.
    cbv zeta in Hrun. unfold transformModule in Hrun. rewrite Hrun.
    eexists. split; [reflexivity|].
    destruct (first_error _ _) as [[k e]|]; reflexivity.
Qed.

Lemma path_chosen_by_suffix_witness :
  (classify "icon.png" = AssetPath
   /\ transformModule Demo.collaborators (Demo.bytes "Man")
        (Demo.options "icon.png" None None) report
      = transformAsset (Demo.bytes "Man")
          (Demo.options "icon.png" None None) report)
  /\ (classify "foo.json" = JsonPath
      /\ transformModule Demo.collaborators (Demo.bytes "[1]")
           (Demo.options "foo.json" None None) report
         = transformJSON "[1]" (Demo.options "foo.json" None None) report)
  /\ classify "a.js" = SourcePath.
Proof.
  split; [|split].
  - apply (proj1 (@path_chosen_by_suffix Demo.collaborators (Demo.bytes "Man")
                    (Demo.options "icon.png" None None) report)).
    reflexivity.
  - apply (proj1 (proj2 (@path_chosen_by_suffix Demo.collaborators
                           (Demo.bytes "[1]")
                           (Demo.options "foo.json" None None) report)));
      reflexivity.
  - apply (proj2 (proj2 (@path_chosen_by_suffix Demo.collaborators
                           (Demo.bytes "var a = 1;")
                           (Demo.options "a.js" None None) report)));
      reflexivity.
Defined.

(** C7, as stated, fails for [photo.jpg]: the name is that of an image,
    and the file takes the source-code path, where its content is handed
    to the transformer and delivered as a module. *)
Lemma jpg_image_takes_source_path :
  let m := transformModule Demo.collaborators (Demo.bytes "JFIF")
             (Demo.options "photo.jpg" None None) report in
  spec_indicates_image_asset "photo.jpg" = true
  /\ classify "photo.jpg" = SourcePath
  /\ begun (trace m) = ["default"]
  /\ map f_type (delivered (trace m)) = ["module"]
  /\ map f_assetContent (delivered (trace m)) = [None].
Proof.
  cbv zeta. repeat split; reflexivity.
Qed.

(* ------------------------------------------------------------------ *)
(** * Malformed JSON *)

(** C8.  For a JSON file whose text does not parse, [transformModule]
    throws the [SyntaxError] of [JSON.parse] to its caller; the callback
    is not invoked, so that no file is delivered. *)
Theorem malformed_json_throws
  (E : Collaborators) (content : Buffer) (options : TransformOptions)
  (callback : Callback_t) (e : Error) :
  classify (filename options) = JsonPath ->
  Json.parse (toString_utf8 E content) = inl e ->
  let m := transformModule E content options callback in
  m = ([], Throw e)
  /\ error_name e = "SyntaxError"
  /\ callbacks (trace m) = []
  /\ delivered (trace m) = [].
Proof.
  intros Hpath Hparse m.
  assert (Hm : m = ([], Throw e)).
  { unfold m, transformModule. unfold classify in Hpath.
    destruct (Str.endsWith (filename options) ".png"); [discriminate|].
    destruct (Str.endsWith (filename options) ".json"); [|discriminate].
    unfold transformJSON. now rewrite Hparse. }
  rewrite Hm. repeat split. now apply parse_error with (1 := Hparse).
Qed.

Lemma malformed_json_throws_witness :
  let m := transformModule Demo.collaborators (Demo.bytes "{oops")
             (Demo.options "bad.json" None None) report in
  m = ([], Throw (SyntaxError "Unexpected token in JSON"))
  /\ error_name (SyntaxError "Unexpected token in JSON") = "SyntaxError"
  /\ callbacks (trace m) = []
  /\ delivered (trace m) = [].
Proof.
  apply (@malformed_json_throws Demo.collaborators (Demo.bytes "{oops")
           (Demo.options "bad.json" None None) report
           (SyntaxError "Unexpected token in JSON")).
  - reflexivity.
  - reflexivity.
Defined.

(* ------------------------------------------------------------------ *)
(** * The order of the transformer calls *)

(** C9 (as amended).  On the source-code path the transformer is called
    for one variant at a time, in the order of the keys of the variants:
    no call begins while another one is in progress, the calls that
    begin are the keys up to the first call that throws, and the callback
    is invoked once all of them are over. *)
Theorem transformer_calls_in_series
  (E : Collaborators) (content : Buffer) (options : TransformOptions) :
  classify (filename options) = SourcePath ->
  Obj.wf (variants_of options) ->
  let ks := Obj.keys (variants_of options) in
  let f := answer (toString_utf8 E content) options in
  let m := transformModule E content options report in
  overlaps false (trace m) = false
  /\ (exists last, trace m = invocation_trace f ks ++ [last]
                   /\ is_callback last = true)
  /\ (exists rest, ks = begun (trace m) ++ rest)
  /\ (forall k e, first_error f ks = Some (k, e) ->
        exists before, begun (trace m) = before ++ [k]
                       /\ forall k', In k' before -> exists r, f k' = inr r).
Proof.
  intros Hpath Hwf ks f m.
  pose proof (transformModule_source E content options Hpath Hwf) as Hrun.
  cbv zeta in Hrun. fold ks f in Hrun. fold m in Hrun.
  set (last := match first_error f ks with
               | Some (_, e) => Callback (Some e) None
               | None => Callback None (Some (module_file E content options))
               end) in Hrun.
  assert (Hlast : is_callback last = true)
    by (unfold last; destruct (first_error f ks) as [[k e]|]; reflexivity).
  assert (Hb : begun [last] = []).
  { destruct last; try discriminate. reflexivity. }
  rewrite Hrun. unfold trace. cbn [fst].
  split; [|split; [|split]].
  - rewrite overlaps_invocation.
    destruct last; try discriminate. reflexivity.
  - now exists last.
  - rewrite begun_app, Hb, app_nil_r. apply begun_invocation.
  - intros k e Hfirst. rewrite begun_app, Hb, app_nil_r.
    clear - Hfirst. revert Hfirst.
    induction ks as [|x ks' IH]; simpl; [discriminate|].
    destruct (f x) as [ex|rx] eqn:Hfx.
    + intros H. injection H as -> ->. exists []. split; [reflexivity|].
      intros k' [].
    + intros H. destruct (IH H) as (before & Hbegun & Hok).
      exists (x :: before). simpl. rewrite Hbegun. split; [reflexivity|].
      intros k' [<-|Hin]; [now exists rx|now apply Hok].
Qed.

Lemma transformer_calls_in_series_witness :
  let options := Demo.options "a.js" None (Some Demo.failing_variants) in
  let ks := ["debug"; "broken"; "release"] in
  let f := answer "var a = 1;" options in
  let m := transformModule Demo.collaborators (Demo.bytes "var a = 1;")
             options report in
  overlaps false (trace m) = false
  /\ (exists last, trace m = invocation_trace f ks ++ [last]
                   /\ is_callback last = true)
  /\ (exists rest, ks = begun (trace m) ++ rest)
  /\ (forall k e, first_error f ks = Some (k, e) ->
        exists before, begun (trace m) = before ++ [k]
                       /\ forall k', In k' before -> exists r, f k' = inr r).
Proof.
  apply (@transformer_calls_in_series Demo.collaborators
           (Demo.bytes "var a = 1;")
           (Demo.options "a.js" None (Some Demo.failing_variants))).
  - reflexivity.
  - wf_list.
Defined.

(** C9, as stated, fails for a file with the two variants [debug] and
    [release]: the call for [release] begins after the call for [debug]
    has returned, and no two calls overlap. *)
Lemma two_variants_run_in_series :
  let m := transformModule Demo.collaborators (Demo.bytes "var a = 1;")
             (Demo.options "a.js" None (Some Demo.two_variants)) report in
  firstn 4 (trace m)
  = [TransformBegin "debug"; TransformReturned "debug";
     TransformBegin "release"; TransformReturned "release"]
  /\ overlaps false (trace m) = false
  /\ List.length (trace m) = 5.
Proof.
  cbv zeta. repeat split; reflexivity.
Qed.

(* ------------------------------------------------------------------ *)
(** * Empty variants *)

(** C10.  On the source-code path, with a variants mapping that is given
    and empty, the transformer is not called and the callback is invoked
    once, with a file of type [module], or [script] for a polyfill, whose
    [transformed] mapping is empty; the variant [default] is used only
    when no variants are given. *)
Theorem empty_variants_give_empty_result
  (E : Collaborators) (content : Buffer) (options : TransformOptions) :
  classify (filename options) = SourcePath ->
  variants options = Some [] ->
  exists file,
    transformModule E content options report
    = ([Callback None (Some file)], Normal tt)
    /\ f_transformed file = []
    /\ f_type file = (if is_true (polyfill options) then "script" else "module")
    /\ f_assetContent file = None
    /\ f_code file = toString_utf8 E content.
Proof.
  intros Hpath Hvariants.
  assert (Hvs : variants_of options = [])
    by (unfold variants_of; now rewrite Hvariants).
  assert (Hwf : Obj.wf (variants_of options))
    by (rewrite Hvs; split; [constructor|intros []]).
  pose proof (transformModule_source E content options Hpath Hwf) as Hrun.
  cbv zeta in Hrun. rewrite Hvs in Hrun. simpl in Hrun.
  exists (module_file E content options).
  split; [exact Hrun|].
  unfold module_file; cbn [f_transformed f_type f_assetContent f_code].
  rewrite Hvs. repeat split.
Qed.

Lemma empty_variants_give_empty_result_witness :
  exists file,
    transformModule Demo.collaborators (Demo.bytes "var a = 1;")
      (Demo.options "a.js" None (Some [])) report
    = ([Callback None (Some file)], Normal tt)
    /\ f_transformed file = []
    /\ f_type file = "module"
    /\ f_assetContent file = None
    /\ f_code file = "var a = 1;".
Proof.
  apply (@empty_variants_give_empty_result Demo.collaborators
           (Demo.bytes "var a = 1;") (Demo.options "a.js" None (Some []))).
  - reflexivity.
  - reflexivity.
Defined.

(* ------------------------------------------------------------------ *)
(** * Suffixes and base names *)

Module StrFacts.

Lemma substring_skip p : forall k m t,
  substring (String.length p + k) m (p +++ t) = substring k m t.
Proof.
  induction p as [|c p IH]; intros k m t; simpl; [reflexivity|apply IH].
Qed.

Lemma substring_whole t : substring 0 (String.length t) t = t.
Proof.
  induction t as [|c t IH]; simpl; [reflexivity|now rewrite IH].
Qed.

Lemma append_assoc (a b c : string) : (a +++ b) +++ c = a +++ (b +++ c).
Proof. induction a as [|x a IH]; simpl; [reflexivity|now rewrite IH]. Qed.

(** A text ends with what is appended to it. *)
Lemma endsWith_append p t : Str.endsWith (p +++ t) t = true.
Proof.
  unfold Str.endsWith. rewrite JsonParseFacts.append_len.
  replace (Nat.leb (String.length t) (String.length p + String.length t))
    with true by (symmetry; apply Nat.leb_le; lia).
  replace (String.length p + String.length t - String.length t)
    with (String.length p + 0) by lia.
  rewrite substring_skip, substring_whole. apply String.eqb_refl.
Qed.

Lemma json_name_not_png p : Str.endsWith (p +++ ".json") ".png" = false.
Proof.
  unfold Str.endsWith. rewrite JsonParseFacts.append_len.
  cbn [String.length].
  replace (Nat.leb 4 (String.length p + 5))
    with true by (symmetry; apply Nat.leb_le; lia).
  replace (String.length p + 5 - 4) with (String.length p + 1) by lia.
  rewrite substring_skip. reflexivity.
Qed.

Lemma last_segment_no_slash s : forall acc,
  no_slash s = true -> Str.last_segment s acc = acc +++ s.
Proof.
  induction s as [|c s IH]; intros acc; simpl.
  - intros _. induction acc as [|a acc IHa]; simpl; congruence.
  - destruct (Ascii.eqb c Str.slash); simpl; [discriminate|].
    intros H. rewrite IH by exact H.
    clear. induction acc as [|a acc IHa]; simpl; [reflexivity|now rewrite IHa].
Qed.

Lemma last_segment_dir dir name : forall acc,
  name <> EmptyString ->
  Str.last_segment (dir +++ String Str.slash name) acc
  = Str.last_segment name EmptyString.
Proof.
  induction dir as [|c dir IH]; intros acc Hname; simpl.
  - destruct name; [congruence|reflexivity].
  - destruct (Ascii.eqb c Str.slash).
    + destruct (dir +++ String Str.slash name) eqn:Hrest.
      * destruct dir; discriminate.
      * now apply IH.
    + now apply IH.
Qed.

(** The base name of a path is its last segment. *)
Lemma basename_in_dir dir name :
  name <> EmptyString -> no_slash name = true ->
  Str.basename (dir +++ String Str.slash name) = name.
Proof.
  intros Hname Hslash. unfold Str.basename.
  rewrite last_segment_dir by exact Hname.
  now rewrite last_segment_no_slash.
Qed.

End StrFacts.

(* ------------------------------------------------------------------ *)
(** * The three paths, run by run *)

Module RunFacts.

Lemma classify_cases name :
  (classify name = AssetPath /\ Str.endsWith name ".png" = true)
  \/ (classify name = JsonPath /\ Str.endsWith name ".png" = false
      /\ Str.endsWith name ".json" = true)
  \/ (classify name = SourcePath /\ Str.endsWith name ".png" = false
      /\ Str.endsWith name ".json" = false).
Proof.
  unfold classify.
  destruct (Str.endsWith name ".png"); [now left|].
  destruct (Str.endsWith name ".json"); [right; now left|right; now right].
Qed.

Lemma asset_run E content options :
  classify (filename options) = AssetPath ->
  transformModule E content options report
  = ([Callback None (Some {|
        f_assetContent := Some (Base64.encode content);
        f_code := EmptyString;
        f_file := filename options;
        f_hasteID := Some JNull;
        f_package := None;
        f_transformed := [];
        f_type := "asset" |})],
     Normal tt).
Proof.
  intros H. destruct (classify_cases (filename options))
    as [[_ Hpng]|[[H' _]|[H' _]]]; try congruence.
  unfold transformModule. now rewrite Hpng.
Qed.

Lemma json_run E content options :
  classify (filename options) = JsonPath ->
  transformModule E content options report
  = transformJSON (toString_utf8 E content) options report.
Proof.
  intros H. destruct (classify_cases (filename options))
    as [[H' _]|[(_ & Hpng & Hjson)|[H' _]]]; try congruence.
  unfold transformModule. now rewrite Hpng, Hjson.
Qed.

(** The asset path with any callback. *)
Lemma asset_run_any E content options callback :
  classify (filename options) = AssetPath ->
  transformModule E content options callback
  = transformAsset content options callback.
Proof.
  intros H. destruct (classify_cases (filename options))
    as [[_ Hpng]|[[H' _]|[H' _]]]; try congruence.
  unfold transformModule. now rewrite Hpng.
Qed.

Lemma json_run_any E content options callback :
  classify (filename options) = JsonPath ->
  transformModule E content options callback
  = transformJSON (toString_utf8 E content) options callback.
Proof.
  intros H. destruct (classify_cases (filename options))
    as [[H' _]|[(_ & Hpng & Hjson)|[H' _]]]; try congruence.
  unfold transformModule. now rewrite Hpng, Hjson.
Qed.

(** The source-code path with any callback: the transformer calls, then
    the run of the callback on the error of the first call that throws, or
    on the assembled file. *)
Lemma source_run_any E content options callback :
  classify (filename options) = SourcePath ->
  Obj.wf (variants_of options) ->
  let code := toString_utf8 E content in
  let ks := Obj.keys (variants_of options) in
  let last :=
    match first_error (answer code options) ks with
    | Some (_, e) => callback (Some e) None
    | None => callback None (Some (module_file E content options))
    end in
  transformModule E content options callback
  = (invocation_trace (answer code options) ks ++ trace last, outcome last).
Proof.
  intros Hpath Hwf code ks last.
  unfold classify in Hpath.
  unfold transformModule.
  destruct (Str.endsWith (filename options) ".png"); [discriminate|].
  destruct (Str.endsWith (filename options) ".json"); [discriminate|].
  fold code. fold (variants_of options). fold ks.
  assert (Hnd : NoDup ks) by now apply keys_NoDup.
  assert (Hproto : ~ In "__proto__" ks) by now apply keys_proto_free.
  rewrite (@fold_set_fresh _
             (variant_task code (filename options) (transformer options)
                           (variants_of options)) ks [] Hnd Hproto)
    by (intros k _ []).
  simpl app. unfold series. unfold ks at 1. rewrite keys_keyed. fold ks.
  rewrite (@series_from_run code options _ ks []); trivial.
  2:{ intros k _ []. }
  2:{ intros k Hin. now apply get_map_key. }
  rewrite bind_normal. cbn [fst snd]. rewrite app_nil_l.
  pose proof (outcomes_first_error code options ks) as Hfe.
  unfold last.
  destruct (first_error (answer code options) ks) as [[k0 e0]|] eqn:Hfirst;
    simpl in Hfe.
  - rewrite Hfe. reflexivity.
  - rewrite Hfe.
    destruct (outcomes_all_ok code options ks Hfe) as [Hres Hall].
    rewrite Hres. unfold ks at 2 3. rewrite entries_keyed. fold ks.
    rewrite (@make_transformed_run E code options ks []); trivial.
    2:{ intros k _ []. }
    rewrite bind_ret_l. reflexivity.
Qed.

(** A text that parses to a value other than [null], with any callback. *)
Lemma transformJSON_value_any text options value callback :
  Json.parse text = inr value -> value <> JNull ->
  transformJSON text options callback
  = callback None (Some (json_file text options value)).
Proof.
  intros Hparse Hnull. unfold transformJSON. rewrite Hparse.
  fold (variants_of options).
  destruct value; try congruence; cbn [member]; rewrite ?bind_ret_l;
    unfold json_file; cbn [field];
    destruct (String.eqb (Str.basename (filename options)) "package.json");
    rewrite ?bind_ret_l; reflexivity.
Qed.

Lemma member_field value key :
  value <> JNull -> member value key = ret (field value key).
Proof. destruct value; try reflexivity. congruence. Qed.

(** A text that parses to a value other than [null]. *)
Lemma transformJSON_value text options value :
  Json.parse text = inr value -> value <> JNull ->
  transformJSON text options report
  = ([Callback None (Some (json_file text options value))], Normal tt).
Proof.
  intros Hparse Hnull. unfold transformJSON. rewrite Hparse.
  fold (variants_of options).
  rewrite (member_field "name" Hnull), bind_ret_l.
  unfold json_file.
  destruct (String.eqb (Str.basename (filename options)) "package.json").
  - rewrite (member_field "main" Hnull), (member_field "browser" Hnull),
      (member_field "react-native" Hnull), !bind_ret_l.
    reflexivity.
  - reflexivity.
Qed.

(** A text that parses to [null]. *)
Lemma transformJSON_null text options callback :
  Json.parse text = inr JNull ->
  transformJSON text options callback
  = ([], Throw (TypeError "Cannot read property 'name' of null")).
Proof.
  intros Hparse. unfold transformJSON. now rewrite Hparse.
Qed.

Lemma transformJSON_error text options callback e :
  Json.parse text = inl e ->
  transformJSON text options callback = ([], Throw e).
Proof.
  intros Hparse. unfold transformJSON. now rewrite Hparse.
Qed.

Lemma json_null_dec (value : json) : {value = JNull} + {value <> JNull}.
Proof. destruct value; (now left) || (right; discriminate). Qed.

(** The calls for keys that all return. *)
Lemma invocation_all_ok R (f : string -> Error + R) ks :
  (forall k, In k ks -> exists r, f k = inr r) ->
  invocation_trace f ks = calls_returned ks.
Proof.
  induction ks as [|k ks IH]; simpl; intros Hall; [reflexivity|].
  destruct (Hall k) as [r Hr]; [now left|]. rewrite Hr.
  unfold calls_returned in *. simpl. do 2 f_equal.
  apply IH. intros k' Hin. apply Hall. now right.
Qed.

Lemma begun_calls_returned ks : begun (calls_returned ks) = ks.
Proof.
  unfold calls_returned.
  induction ks as [|k ks IH]; simpl; [reflexivity|now rewrite IH].
Qed.

End RunFacts.

Import StrFacts RunFacts.

(* ------------------------------------------------------------------ *)
(** * Further properties of the transform of one file *)

(** X1.  With a callback that returns, [transformModule] either returns
    after having invoked the callback exactly once, as its last step and
    after nothing but transformer calls, with an error and no file or with
    a file and no error, or throws without having invoked the callback. *)
Theorem callback_once_or_throw
  (E : Collaborators) (content : Buffer) (options : TransformOptions)
  (callback : Callback_t) :
  Obj.wf (variants_of options) ->
  (forall error result, outcome (callback error result) = Normal tt) ->
  let m := transformModule E content options callback in
  (exists calls error result,
     m = (calls ++ trace (callback error result), Normal tt)
     /\ callbacks calls = []
     /\ ((exists e, error = Some e /\ result = None)
         \/ (exists file, error = None /\ result = Some file)))
  \/ (exists e, m = ([], Throw e)).
Proof.
  intros Hwf Hreturns m.
  assert (Hrun : forall error result,
            callback error result
            = ([] ++ trace (callback error result), Normal tt)).
  { intros error result. rewrite <- (Hreturns error result).
    apply surjective_pairing. }
  destruct (classify_cases (filename options))
    as [[Hpath _]|[[Hpath _]|[Hpath _]]].
  - left. unfold m. rewrite asset_run_any by exact Hpath.
    unfold transformAsset. eexists [], None, (Some _).
    split; [apply Hrun|]. split; [reflexivity|].
    right. eexists. split; reflexivity.
  - unfold m. rewrite json_run_any by exact Hpath.
    destruct (Json.parse (toString_utf8 E content)) as [e|value] eqn:Hparse.
    + right. exists e.
      now rewrite (@transformJSON_error _ options callback _ Hparse).
    + destruct (json_null_dec value) as [->|Hnull].
      * right. eexists.
        now rewrite (@transformJSON_null _ options callback Hparse).
      * left.
        rewrite (@transformJSON_value_any _ options _ callback Hparse Hnull).
        eexists [], None, (Some _).
        split; [apply Hrun|]. split; [reflexivity|].
        right. eexists. split; reflexivity.
  - left. unfold m. rewrite source_run_any by assumption. cbv zeta.
    destruct (first_error _ _) as [[k e]|].
    + eexists _, (Some e), None. rewrite Hreturns.
      split; [reflexivity|]. split; [apply callbacks_invocation|].
      left. eexists. split; reflexivity.
    + eexists _, None, (Some _). rewrite Hreturns.
      split; [reflexivity|]. split; [apply callbacks_invocation|].
      right. eexists. split; reflexivity.
Qed.

Lemma callback_once_or_throw_witness :
  let m := transformModule Demo.collaborators (Demo.bytes "var a = 1;")
             (Demo.options "a.js" None (Some Demo.failing_variants)) report in
  (exists calls error result,
     m = (calls ++ trace (report error result), Normal tt)
     /\ callbacks calls = []
     /\ ((exists e, error = Some e /\ result = None)
         \/ (exists file, error = None /\ result = Some file)))
  \/ (exists e, m = ([], Throw e)).
Proof.
  apply (@callback_once_or_throw Demo.collaborators (Demo.bytes "var a = 1;")
           (Demo.options "a.js" None (Some Demo.failing_variants)) report).
  - wf_list.
  - reflexivity.
Defined.

(** X3.  Off the source-code path the transformer is not called: the
    trace of an asset or of a JSON file holds nothing but the invocation
    of the callback, if any. *)
Theorem transformer_called_on_source_path_only
  (E : Collaborators) (content : Buffer) (options : TransformOptions) :
  classify (filename options) <> SourcePath ->
  let m := transformModule E content options report in
  begun (trace m) = [] /\ forallb is_callback (trace m) = true.
Proof.
  intros Hpath m.
  destruct (classify_cases (filename options))
    as [[H _]|[[H _]|[H _]]]; [| |congruence].
  - unfold m. rewrite asset_run by exact H. split; reflexivity.
  - unfold m. rewrite json_run by exact H.
    destruct (Json.parse (toString_utf8 E content)) as [e|value] eqn:Hparse.
    + rewrite (@transformJSON_error _ options report _ Hparse). split; reflexivity.
    + destruct (json_null_dec value) as [->|Hnull].
      * rewrite (@transformJSON_null _ options report Hparse). split; reflexivity.
      * rewrite (@transformJSON_value _ options _ Hparse Hnull). split; reflexivity.
Qed.

Lemma transformer_called_on_source_path_only_witness :
  let m := transformModule Demo.collaborators (Demo.bytes Demo.manifest_text)
             (Demo.options "foo.json" None (Some Demo.failing_variants))
             report in
  begun (trace m) = [] /\ forallb is_callback (trace m) = true.
Proof.
  apply (@transformer_called_on_source_path_only Demo.collaborators
           (Demo.bytes Demo.manifest_text)
           (Demo.options "foo.json" None (Some Demo.failing_variants))).
  discriminate.
Defined.

(** X4.  On the source-code path, when no variant is named [__proto__]
    and every transformer call returns, the transformer is called exactly
    once for each variant, in the order
    of [Object.keys], each call returning before the next begins, and the
    callback is invoked after the last. *)
Theorem each_variant_transformed_once
  (E : Collaborators) (content : Buffer) (options : TransformOptions) :
  classify (filename options) = SourcePath ->
  Obj.wf (variants_of options) ->
  (forall k, In k (Obj.keys (variants_of options)) ->
     exists r, answer (toString_utf8 E content) options k = inr r) ->
  let ks := Obj.keys (variants_of options) in
  let m := transformModule E content options report in
  (exists file, trace m = calls_returned ks ++ [Callback None (Some file)])
  /\ begun (trace m) = ks
  /\ NoDup (begun (trace m)).
Proof.
  intros Hpath Hwf Hall ks m.
  assert (Hm : trace m = calls_returned ks
                 ++ [Callback None (Some (module_file E content options))]).
  { unfold m. rewrite transformModule_source by assumption.
    cbv zeta. rewrite (first_error_none _ _ _ Hall).
    unfold trace. cbn [fst]. now rewrite (invocation_all_ok _ _ Hall). }
  assert (Hb : begun (trace m) = ks).
  { rewrite Hm, begun_app, begun_calls_returned. simpl. apply app_nil_r. }
  split; [eexists; exact Hm|]. split; [exact Hb|].
  rewrite Hb. now apply keys_NoDup.
Qed.

Lemma each_variant_transformed_once_witness :
  let m := transformModule Demo.collaborators (Demo.bytes "var a = 1;")
             (Demo.options "a.js" None (Some Demo.two_variants)) report in
  (exists file,
     trace m = calls_returned ["debug"; "release"]
               ++ [Callback None (Some file)])
  /\ begun (trace m) = ["debug"; "release"]
  /\ NoDup (begun (trace m)).
Proof.
  apply (@each_variant_transformed_once Demo.collaborators
           (Demo.bytes "var a = 1;")
           (Demo.options "a.js" None (Some Demo.two_variants))).
  - reflexivity.
  - wf_list.
  - simpl. intros k [<-|[<-|[]]]; eexists; reflexivity.
Defined.

Lemma get_variant_result E code options ks k r :
  (forall k', In k' ks -> exists r', answer code options k' = inr r') ->
  In k ks -> answer code options k = inr r ->
  Obj.get
    (flat_map
       (fun x =>
          match answer code options x with
          | inr rx => [(x, makeResult E (ast rx) (filename options) code
                                      (polyfill options))]
          | inl _ => []
          end) ks) k
  = Some (makeResult E (ast r) (filename options) code (polyfill options)).
Proof.
  intros Hall Hin Hk.
  induction ks as [|x ks IH]; simpl; [destruct Hin|].
  destruct (Hall x) as [rx Hrx]; [now left|].
  rewrite Hrx. simpl.
  destruct (String.eqb_spec x k) as [->|Hne].
  - congruence.
  - destruct Hin as [Heq|Hin]; [congruence|].
    apply IH; trivial. intros k' Hk'. apply Hall. now right.
Qed.

(** X5.  On the source-code path, when no variant is named [__proto__]
    and every transformer call returns, the result stored for a variant
    is [makeResult] of the tree the
    transformer returned for that very variant, with the filename, the
    source text and the polyfill flag of the file. *)
Theorem variant_result_from_own_tree
  (E : Collaborators) (content : Buffer) (options : TransformOptions) :
  classify (filename options) = SourcePath ->
  Obj.wf (variants_of options) ->
  (forall k, In k (Obj.keys (variants_of options)) ->
     exists r, answer (toString_utf8 E content) options k = inr r) ->
  let code := toString_utf8 E content in
  let m := transformModule E content options report in
  exists file,
    delivered (trace m) = [file]
    /\ forall k r,
         In k (Obj.keys (variants_of options)) ->
         answer code options k = inr r ->
         Obj.get (f_transformed file) k
         = Some (makeResult E (ast r) (filename options) code
                            (polyfill options)).
Proof.
  intros Hpath Hwf Hall code m.
  exists (module_file E content options). split.
  - unfold m. rewrite transformModule_source by assumption.
    cbv zeta. rewrite (first_error_none _ _ _ Hall).
    unfold trace. cbn [fst].
    now rewrite delivered_app, delivered_invocation.
  - intros k r Hin Hk. unfold module_file. cbn [f_transformed].
    now apply get_variant_result.
Qed.

Lemma variant_result_from_own_tree_witness :
  let options := Demo.options "a.js" None (Some Demo.two_variants) in
  let m := transformModule Demo.collaborators (Demo.bytes "var a = 1;")
             options report in
  exists file,
    delivered (trace m) = [file]
    /\ forall k r,
         In k ["debug"; "release"] ->
         answer "var a = 1;" options k = inr r ->
         Obj.get (f_transformed file) k
         = Some (makeResult Demo.collaborators (ast r) "a.js" "var a = 1;"
                            None).
Proof.
  apply (@variant_result_from_own_tree Demo.collaborators
           (Demo.bytes "var a = 1;")
           (Demo.options "a.js" None (Some Demo.two_variants))).
  - reflexivity.
  - wf_list.
  - simpl. intros k [<-|[<-|[]]]; eexists; reflexivity.
Defined.

(** X6.  The file delivered on the source-code path carries the source
    text as [code], the filename as [file], no asset content and no
    package; its type is [script] exactly when [polyfill] is [true], and
    [module] otherwise; its [hasteID] is the [providesModule] annotation of
    the docblock when there is one that is not empty, and [null]
    otherwise. *)
Theorem source_file_metadata
  (E : Collaborators) (content : Buffer) (options : TransformOptions) :
  classify (filename options) = SourcePath ->
  Obj.wf (variants_of options) ->
  (forall k, In k (Obj.keys (variants_of options)) ->
     exists r, answer (toString_utf8 E content) options k = inr r) ->
  let code := toString_utf8 E content in
  let annotations := docblock_parseAsObject E (docblock_extract E code) in
  let m := transformModule E content options report in
  exists file,
    delivered (trace m) = [file]
    /\ f_code file = code
    /\ f_file file = filename options
    /\ f_assetContent file = None
    /\ f_package file = None
    /\ (polyfill options = Some true -> f_type file = "script")
    /\ (polyfill options <> Some true -> f_type file = "module")
    /\ (forall id, Obj.get annotations "providesModule" = Some id ->
          id <> EmptyString -> f_hasteID file = Some (JString id))
    /\ (Obj.get annotations "providesModule" = None
        \/ Obj.get annotations "providesModule" = Some EmptyString ->
          f_hasteID file = Some JNull).
Proof.
  intros Hpath Hwf Hall code annotations m.
  exists (module_file E content options). split.
  { unfold m. rewrite transformModule_source by assumption.
    cbv zeta. rewrite (first_error_none _ _ _ Hall).
    unfold trace. cbn [fst].
    now rewrite delivered_app, delivered_invocation. }
  unfold module_file.
  cbn [f_code f_file f_assetContent f_package f_type f_hasteID].
  fold code. fold annotations.
  repeat split.
  - intros ->. reflexivity.
  - intros Hp. destruct (polyfill options) as [[|]|]; [congruence| |];
      reflexivity.
  - intros id Hid Hne. unfold providesModule. rewrite Hid.
    destruct id; [congruence|reflexivity].
  - intros [H|H]; unfold providesModule; now rewrite H.
Qed.

Lemma source_file_metadata_witness :
  let options := Demo.options "shim.js" (Some true) (Some Demo.two_variants) in
  let m := transformModule Samples.collaborators (Demo.bytes "var a = 1;")
             options report in
  exists file,
    delivered (trace m) = [file]
    /\ f_code file = "var a = 1;"
    /\ f_file file = "shim.js"
    /\ f_assetContent file = None
    /\ f_package file = None
    /\ f_type file = "script"
    /\ f_hasteID file = Some (JString "Shim").
Proof.
  destruct (@source_file_metadata Samples.collaborators
              (Demo.bytes "var a = 1;")
              (Demo.options "shim.js" (Some true) (Some Demo.two_variants)))
    as (file & H1 & H2 & H3 & H4 & H5 & H6 & _ & H8 & _).
  - reflexivity.
  - wf_list.
  - simpl. intros k [<-|[<-|[]]]; eexists; reflexivity.
  - exists file. repeat split; trivial.
    + now apply H6.
    + apply (H8 "Shim"); [reflexivity|discriminate].
Defined.

(** X7.  For a JSON file whose text parses to a value other than [null],
    the keys of the [transformed] mapping are the keys of the variants
    other than [__proto__], under which the assignment stores nothing, in
    the order of [Object.keys]: all the keys of the variants when none is
    [__proto__], the single key [default] when no variants are given and
    no key at all when the variants given are empty, each with the same
    module data. *)
Theorem json_transformed_keys
  (E : Collaborators) (content : Buffer) (options : TransformOptions)
  (value : json) :
  classify (filename options) = JsonPath ->
  Json.parse (toString_utf8 E content) = inr value ->
  value <> JNull ->
  NoDup (map fst (variants_of options)) ->
  let text := toString_utf8 E content in
  let m := transformModule E content options report in
  exists file,
    delivered (trace m) = [file]
    /\ f_transformed file
       = map (fun k => (k, json_module_data text))
             (Obj.stored (Obj.keys (variants_of options)))
    /\ Obj.keys (f_transformed file)
       = Obj.stored (Obj.keys (variants_of options))
    /\ (~ In "__proto__" (map fst (variants_of options)) ->
        Obj.keys (f_transformed file) = Obj.keys (variants_of options))
    /\ (variants options = None -> Obj.keys (f_transformed file) = ["default"])
    /\ (variants options = Some [] -> f_transformed file = []).
Proof.
  intros Hpath Hparse Hnull Hnd text m.
  exists (json_file text options value).
  assert (Ht : f_transformed (json_file text options value)
               = map (fun k => (k, json_module_data text))
                     (Obj.stored (Obj.keys (variants_of options)))).
  { unfold json_file. cbn [f_transformed].
    rewrite (@fold_set_stored _ (fun _ => json_module_data text)
               (Obj.keys (variants_of options)) []).
    - reflexivity.
    - now apply order_keys_NoDup.
    - intros k _ []. }
  assert (Hk : Obj.keys (f_transformed (json_file text options value))
               = Obj.stored (Obj.keys (variants_of options))).
  { rewrite Ht. unfold Obj.keys at 1. rewrite map_fst_keyed.
    unfold Obj.keys. now rewrite order_keys_stored, order_keys_idem. }
  split; [|split; [exact Ht|split; [exact Hk|split; [|split]]]].
  - unfold m. rewrite json_run by exact Hpath.
    now rewrite (@transformJSON_value _ options _ Hparse Hnull).
  - intros Hproto. rewrite Hk. apply stored_proto_free.
    intros Hin. apply Hproto. now apply keys_In.
  - intros Hnone. rewrite Hk. unfold variants_of. now rewrite Hnone.
  - intros Hempty. rewrite Ht. unfold variants_of. now rewrite Hempty.
Qed.

Lemma json_transformed_keys_witness :
  let variants :=
    [("debug", JObject []); ("__proto__", JObject []); ("7", JObject [])] in
  let m := transformModule Demo.collaborators (Demo.bytes Demo.manifest_text)
             (Demo.options "foo.json" None (Some variants)) report in
  exists file,
    delivered (trace m) = [file]
    /\ f_transformed file
       = [("7", json_module_data Demo.manifest_text);
          ("debug", json_module_data Demo.manifest_text)]
    /\ Obj.keys (f_transformed file) = ["7"; "debug"]
    /\ (~ In "__proto__" ["debug"; "__proto__"; "7"] ->
        Obj.keys (f_transformed file) = ["7"; "debug"; "__proto__"])
    /\ (Some variants = None -> Obj.keys (f_transformed file) = ["default"])
    /\ (Some variants = Some [] -> f_transformed file = []).
Proof.
  apply (@json_transformed_keys Demo.collaborators
           (Demo.bytes Demo.manifest_text)
           (Demo.options "foo.json" None
              (Some [("debug", JObject []); ("__proto__", JObject []);
                     ("7", JObject [])]))
           Samples.manifest_value).
  - reflexivity.
  - reflexivity.
  - discriminate.
  - simpl. repeat (constructor; [simpl; intuition discriminate|]). constructor.
Defined.

(** X8.  For a JSON file whose text parses to a value other than [null],
    the file delivered has a [package] exactly when the base name of the
    filename is [package.json]; the package holds the properties [name],
    [main], [browser] and [react-native] of the parsed value, each
    [undefined] when the value has no such property. *)
Theorem manifest_summary
  (E : Collaborators) (content : Buffer) (options : TransformOptions)
  (value : json) :
  classify (filename options) = JsonPath ->
  Json.parse (toString_utf8 E content) = inr value ->
  value <> JNull ->
  let m := transformModule E content options report in
  exists file,
    delivered (trace m) = [file]
    /\ (Str.basename (filename options) = "package.json" ->
        f_package file
        = Some {| p_name := field value "name";
                  p_main := field value "main";
                  p_browser := field value "browser";
                  p_react_native := field value "react-native" |})
    /\ (Str.basename (filename options) <> "package.json" ->
        f_package file = None).
Proof.
  intros Hpath Hparse Hnull m.
  exists (json_file (toString_utf8 E content) options value).
  split; [|split].
  - unfold m. rewrite json_run by exact Hpath.
    now rewrite (@transformJSON_value _ options _ Hparse Hnull).
  - intros Hb. unfold json_file. cbn [f_package]. rewrite Hb. reflexivity.
  - intros Hb. unfold json_file. cbn [f_package].
    destruct (String.eqb_spec (Str.basename (filename options))
                              "package.json"); [contradiction|reflexivity].
Qed.

Lemma manifest_summary_witness :
  let m := transformModule Demo.collaborators (Demo.bytes Demo.manifest_text)
             (Demo.options "lib/package.json" None None) report in
  exists file,
    delivered (trace m) = [file]
    /\ f_package file
       = Some {| p_name := Some (JString "pkg");
                 p_main := Some (JString "index.js");
                 p_browser := None;
                 p_react_native := None |}.
Proof.
  destruct (@manifest_summary Demo.collaborators
              (Demo.bytes Demo.manifest_text)
              (Demo.options "lib/package.json" None None)
              Samples.manifest_value)
    as (file & Hd & Hyes & _).
  - reflexivity.
  - reflexivity.
  - discriminate.
  - exists file. split; [exact Hd|]. apply Hyes. reflexivity.
Defined.

(** X9.  A file named [package.json], in whatever directory, takes the
    JSON path and, when its text parses to a value other than [null], is
    delivered with a [package]. *)
Theorem manifest_in_any_directory
  (E : Collaborators) (content : Buffer) (options : TransformOptions)
  (dir : string) (value : json) :
  filename options = dir +++ "/package.json" ->
  Json.parse (toString_utf8 E content) = inr value ->
  value <> JNull ->
  let m := transformModule E content options report in
  classify (filename options) = JsonPath
  /\ Str.basename (filename options) = "package.json"
  /\ exists file summary,
       delivered (trace m) = [file]
       /\ f_package file = Some summary
       /\ p_name summary = field value "name"
       /\ p_main summary = field value "main".
Proof.
  intros Hname Hparse Hnull m.
  assert (Hpath : classify (filename options) = JsonPath).
  { rewrite Hname. unfold classify.
    change (dir +++ "/package.json") with (dir +++ ("/package" +++ ".json")).
    rewrite <- append_assoc.
    now rewrite json_name_not_png, endsWith_append. }
  assert (Hbase : Str.basename (filename options) = "package.json").
  { rewrite Hname.
    change (dir +++ "/package.json")
      with (dir +++ String Str.slash "package.json").
    apply basename_in_dir; [discriminate|reflexivity]. }
  split; [exact Hpath|]. split; [exact Hbase|].
  exists (json_file (toString_utf8 E content) options value).
  eexists. split; [|split; [|split]].
  - unfold m. rewrite json_run by exact Hpath.
    now rewrite (@transformJSON_value _ options _ Hparse Hnull).
  - unfold json_file. cbn [f_package]. rewrite Hbase. reflexivity.
  - reflexivity.
  - reflexivity.
Qed.

Lemma manifest_in_any_directory_witness :
  let options := Demo.options "node_modules/pkg/package.json" None None in
  let m := transformModule Demo.collaborators (Demo.bytes Demo.manifest_text)
             options report in
  classify "node_modules/pkg/package.json" = JsonPath
  /\ Str.basename "node_modules/pkg/package.json" = "package.json"
  /\ exists file summary,
       delivered (trace m) = [file]
       /\ f_package file = Some summary
       /\ p_name summary = Some (JString "pkg")
       /\ p_main summary = Some (JString "index.js").
Proof.
  apply (@manifest_in_any_directory Demo.collaborators
           (Demo.bytes Demo.manifest_text)
           (Demo.options "node_modules/pkg/package.json" None None)
           "node_modules/pkg" Samples.manifest_value).
  - reflexivity.
  - reflexivity.
  - discriminate.
Defined.

(** X10.  For a JSON file whose text parses to [null], the read of
    [value.name] makes [transformModule] throw a [TypeError]; the
    callback is not invoked. *)
Theorem json_null_throws
  (E : Collaborators) (content : Buffer) (options : TransformOptions)
  (callback : Callback_t) :
  classify (filename options) = JsonPath ->
  Json.parse (toString_utf8 E content) = inr JNull ->
  let m := transformModule E content options callback in
  trace m = []
  /\ exists e, outcome m = Throw e /\ error_name e = "TypeError".
Proof.
  intros Hpath Hparse m.
  destruct (classify_cases (filename options))
    as [[H' _]|[(_ & Hpng & Hjson)|[H' _]]]; try congruence.
  unfold m, transformModule. rewrite Hpng, Hjson.
  rewrite (@transformJSON_null _ options callback Hparse).
  split; [reflexivity|]. eexists. split; reflexivity.
Qed.

Lemma json_null_throws_witness :
  let m := transformModule Demo.collaborators (Demo.bytes "  null ")
             (Demo.options "data.json" None None) report in
  trace m = []
  /\ exists e, outcome m = Throw e /\ error_name e = "TypeError".
Proof.
  apply (@json_null_throws Demo.collaborators (Demo.bytes "  null ")
           (Demo.options "data.json" None None) report).
  - reflexivity.
  - reflexivity.
Defined.

(** X11.  For a polyfill [makeResult] does not consult
    [collectDependencies]: with the same generator, two sets of
    collaborators give the same result, whatever their dependency
    collectors find. *)
Theorem polyfill_skips_collectDependencies
  (E1 E2 : Collaborators) (ast : File) (filename sourceCode : string) :
  generate E1 = generate E2 ->
  makeResult E1 ast filename sourceCode (Some true)
  = makeResult E2 ast filename sourceCode (Some true).
Proof.
  intros Hgen. unfold makeResult. now rewrite Hgen.
Qed.

Lemma polyfill_skips_collectDependencies_witness :
  makeResult Samples.collaborators (Demo.tree "var a = 1;") "shim.js"
             "var a = 1;" (Some true)
  = makeResult Samples.other_collector (Demo.tree "var a = 1;") "shim.js"
               "var a = 1;" (Some true)
  /\ makeResult Samples.collaborators (Demo.tree "var a = 1;") "shim.js"
                "var a = 1;" None
     <> makeResult Samples.other_collector (Demo.tree "var a = 1;") "shim.js"
                   "var a = 1;" None.
Proof.
  split.
  - apply (@polyfill_skips_collectDependencies Samples.collaborators
             Samples.other_collector (Demo.tree "var a = 1;") "shim.js"
             "var a = 1;").
    reflexivity.
  - discriminate.
Defined.

(** X12.  The wrappers read the body and the directives of the program
    and nothing else: trees are wrapped alike as modules exactly when they
    have the same body, the same directives and the same name of the
    dependency map, and alike as polyfills exactly when they have the same
    body and the same directives, whatever their other properties, of
    which the wrapped tree carries none; and a tree wrapped as a module is
    never a tree wrapped as a polyfill. *)
Theorem wrappers_read_body_and_directives
  (file1 file2 : File) (name1 name2 : string) :
  (wrapModule file1 name1 = wrapModule file2 name2 <->
     body (program file1) = body (program file2)
     /\ directives (program file1) = directives (program file2)
     /\ name1 = name2)
  /\ (wrapPolyfill file1 = wrapPolyfill file2 <->
        body (program file1) = body (program file2)
        /\ directives (program file1) = directives (program file2))
  /\ wrapModule file1 name1 <> wrapPolyfill file2
  /\ file_other (wrapModule file1 name1) = []
  /\ program_other (program (wrapModule file1 name1)) = []
  /\ file_other (wrapPolyfill file1) = []
  /\ program_other (program (wrapPolyfill file1)) = [].
Proof.
  destruct file1 as [[b1 d1 o1] c1], file2 as [[b2 d2 o2] c2].
  unfold wrapModule, wrapPolyfill, functionFromProgram; simpl.
  repeat split; try reflexivity.
  - injection H as -> -> ->. reflexivity.
  - injection H as -> -> ->. reflexivity.
  - injection H as -> -> ->. reflexivity.
  - intros (-> & -> & ->). reflexivity.
  - injection H as -> ->. reflexivity.
  - injection H as -> ->. reflexivity.
  - intros (-> & ->). reflexivity.
  - discriminate.
Qed.

Lemma wrappers_read_body_and_directives_witness :
  Demo.tree "var a = 1;" <> Samples.parsed_tree "var a = 1;"
  /\ wrapModule (Demo.tree "var a = 1;") "_dependencyMap"
     = wrapModule (Samples.parsed_tree "var a = 1;") "_dependencyMap"
  /\ wrapPolyfill (Demo.tree "var a = 1;")
     = wrapPolyfill (Samples.parsed_tree "var a = 1;").
Proof.
  destruct (@wrappers_read_body_and_directives (Demo.tree "var a = 1;")
              (Samples.parsed_tree "var a = 1;")
              "_dependencyMap" "_dependencyMap")
    as ([_ Hmod] & [_ Hpoly] & _).
  split; [discriminate|]. split.
  - apply Hmod. repeat split.
  - apply Hpoly. repeat split.
Defined.

Module AssetFacts.
Import Base64 Base64Facts.

(** Four characters for every three bytes, the last group padded. *)
Lemma encode_length bs :
  String.length (encode bs) = 4 * ((List.length bs + 2) / 3).
Proof.
  induction bs as [|x|x y|x y z rest IH] using list_ind3.
  - reflexivity.
  - reflexivity.
  - reflexivity.
  - cbn [encode str4 String.length List.length]. rewrite IH.
    replace (S (S (S (List.length rest))) + 2)
      with ((List.length rest + 2) + 1 * 3) by lia.
    rewrite Nat.div_add by lia. lia.
Qed.

Lemma encode_injective bs1 bs2 : encode bs1 = encode bs2 -> bs1 = bs2.
Proof.
  intros H. apply (f_equal decode) in H.
  rewrite !decode_encode in H. now injection H.
Qed.

End AssetFacts.

(** X13.  The asset content of a file of [n] bytes has
    [4 * ceil (n / 3)] characters. *)
Theorem asset_content_length
  (E : Collaborators) (content : Buffer) (options : TransformOptions) :
  classify (filename options) = AssetPath ->
  exists file text,
    delivered (trace (transformModule E content options report)) = [file]
    /\ f_assetContent file = Some text
    /\ String.length text = 4 * ((List.length content + 2) / 3).
Proof.
  intros Hpath. rewrite asset_run by exact Hpath.
  eexists. eexists. split; [reflexivity|]. split; [reflexivity|].
  apply AssetFacts.encode_length.
Qed.

Lemma asset_content_length_witness :
  exists file text,
    delivered (trace (transformModule Demo.collaborators
                        (Demo.bytes "Many hands")
                        (Demo.options "icon.png" None None) report)) = [file]
    /\ f_assetContent file = Some text
    /\ String.length text = 16.
Proof.
  apply (@asset_content_length Demo.collaborators (Demo.bytes "Many hands")
           (Demo.options "icon.png" None None)).
  reflexivity.
Defined.

(** X14.  The asset content tells the bytes: two assets delivered with
    the same asset content have the same content. *)
Theorem asset_content_identifies_bytes
  (E1 E2 : Collaborators) (content1 content2 : Buffer)
  (options1 options2 : TransformOptions) :
  classify (filename options1) = AssetPath ->
  classify (filename options2) = AssetPath ->
  map f_assetContent
      (delivered (trace (transformModule E1 content1 options1 report)))
  = map f_assetContent
      (delivered (trace (transformModule E2 content2 options2 report))) ->
  content1 = content2.
Proof.
  intros H1 H2. rewrite !asset_run by assumption. simpl.
  intros H. injection H as H. now apply AssetFacts.encode_injective.
Qed.

Lemma asset_content_identifies_bytes_witness :
  Demo.bytes "Man" = Demo.bytes "Man".
Proof.
  apply (@asset_content_identifies_bytes Demo.collaborators
           Samples.collaborators (Demo.bytes "Man") (Demo.bytes "Man")
           (Demo.options "a/icon.png" None None)
           (Demo.options "b/logo.png" (Some true) None)).
  - reflexivity.
  - reflexivity.
  - reflexivity.
Defined.

(** X15.  A filename made of any text followed by [.png] takes the asset
    path, also when that text ends in [.json]; a filename made of any text
    followed by [.json] takes the JSON path. *)
Theorem path_of_extension
  (E : Collaborators) (content : Buffer) (options : TransformOptions)
  (callback : Callback_t) (stem : string) :
  (filename options = stem +++ ".png" ->
     transformModule E content options callback
     = transformAsset content options callback)
  /\ (filename options = stem +++ ".json" ->
        transformModule E content options callback
        = transformJSON (toString_utf8 E content) options callback).
Proof.
  unfold transformModule. split; intros ->.
  - now rewrite endsWith_append.
  - now rewrite json_name_not_png, endsWith_append.
Qed.

Lemma path_of_extension_witness :
  transformModule Demo.collaborators (Demo.bytes "Man")
    (Demo.options "data.json.png" None None) report
  = transformAsset (Demo.bytes "Man")
      (Demo.options "data.json.png" None None) report
  /\ transformModule Demo.collaborators (Demo.bytes "[1]")
       (Demo.options "icon.png.json" None None) report
     = transformJSON "[1]" (Demo.options "icon.png.json" None None) report.
Proof.
  split.
  - apply (proj1 (@path_of_extension Demo.collaborators (Demo.bytes "Man")
                    (Demo.options "data.json.png" None None) report
                    "data.json")).
    reflexivity.
  - apply (proj2 (@path_of_extension Demo.collaborators (Demo.bytes "[1]")
                    (Demo.options "icon.png.json" None None) report
                    "icon.png")).
    reflexivity.
Defined.

(** X16.  Off the source-code path neither the transformer nor the
    polyfill flag is looked at: two sets of options with the same filename
    and the same variants give the same run. *)
Theorem transformer_and_polyfill_ignored_off_source_path
  (E : Collaborators) (content : Buffer) (options1 options2 : TransformOptions)
  (callback : Callback_t) :
  classify (filename options1) <> SourcePath ->
  filename options2 = filename options1 ->
  variants options2 = variants options1 ->
  transformModule E content options1 callback
  = transformModule E content options2 callback.
Proof.
  intros Hpath Hname Hvariants.
  unfold classify in Hpath. unfold transformModule. rewrite Hname.
  destruct (Str.endsWith (filename options1) ".png").
  - unfold transformAsset. now rewrite Hname.
  - destruct (Str.endsWith (filename options1) ".json"); [|congruence].
    unfold transformJSON. now rewrite Hname, Hvariants.
Qed.

Lemma transformer_and_polyfill_ignored_off_source_path_witness :
  transformModule Demo.collaborators (Demo.bytes Demo.manifest_text)
    (Demo.options "foo.json" None (Some Demo.two_variants)) report
  = transformModule Demo.collaborators (Demo.bytes Demo.manifest_text)
      (mkOptions "foo.json" (Some true)
                 (mkTransformer
                    (fun _ _ _ => inl (mkError "TransformError" "never")))
                 (Some Demo.two_variants)) report.
Proof.
  apply (@transformer_and_polyfill_ignored_off_source_path
           Demo.collaborators (Demo.bytes Demo.manifest_text)
           (Demo.options "foo.json" None (Some Demo.two_variants))
           (mkOptions "foo.json" (Some true)
              (mkTransformer
                 (fun _ _ _ => inl (mkError "TransformError" "never")))
              (Some Demo.two_variants)) report).
  - discriminate.
  - reflexivity.
  - reflexivity.
Defined.

(** X17.  On the source-code path, when no variants are given, the
    transformer is called once, for the variant [default], with the source
    text, the filename and an empty configuration: if the call throws, the
    callback receives its error; if it returns a tree, the callback
    receives a file whose one result, under [default], is made from that
    tree. *)
Theorem default_variant_when_none_given
  (E : Collaborators) (content : Buffer) (options : TransformOptions) :
  classify (filename options) = SourcePath ->
  variants options = None ->
  let code := toString_utf8 E content in
  let m := transformModule E content options report in
  begun (trace m) = ["default"]
  /\ match transform (transformer options) code (filename options)
                     (Some (JObject [])) with
     | inl e =>
         trace m = [TransformBegin "default"; TransformThrew "default";
                    Callback (Some e) None]
     | inr r =>
         exists file,
           trace m = [TransformBegin "default"; TransformReturned "default";
                      Callback None (Some file)]
           /\ f_transformed file
              = [("default", makeResult E (ast r) (filename options) code
                                        (polyfill options))]
     end.
Proof.
  intros Hpath Hnone code m.
  assert (Hvs : variants_of options = defaultVariants)
    by (unfold variants_of; now rewrite Hnone).
  assert (Hwf : Obj.wf (variants_of options))
    by (rewrite Hvs; wf_list).
  pose proof (transformModule_source E content options Hpath Hwf) as Hrun.
  cbv zeta in Hrun. fold code in Hrun. fold m in Hrun.
  assert (Hans : answer code options "default"
                 = transform (transformer options) code (filename options)
                             (Some (JObject []))).
  { unfold answer. now rewrite Hvs. }
  rewrite Hvs in Hrun.
  change (Obj.keys defaultVariants) with ["default"] in Hrun.
  cbn [invocation_trace first_error] in Hrun. rewrite Hans in Hrun.
  destruct (transform (transformer options) code (filename options)
                      (Some (JObject []))) as [e|r] eqn:Ht.
  - rewrite Hrun. split; reflexivity.
  - rewrite Hrun. split; [reflexivity|].
    eexists. split; [reflexivity|].
    unfold module_file. cbn [f_transformed]. rewrite Hvs.
    change (Obj.keys defaultVariants) with ["default"].
    cbn [flat_map]. fold code. rewrite Hans. reflexivity.
Qed.

Lemma default_variant_when_none_given_witness :
  let m := transformModule Demo.collaborators (Demo.bytes "var a = 1;")
             (Demo.options "a.js" None None) report in
  begun (trace m) = ["default"]
  /\ exists file,
       trace m = [TransformBegin "default"; TransformReturned "default";
                  Callback None (Some file)]
       /\ f_transformed file
          = [("default", makeResult Demo.collaborators (Demo.tree "var a = 1;")
                                    "a.js" "var a = 1;" None)].
Proof.
  apply (@default_variant_when_none_given Demo.collaborators
           (Demo.bytes "var a = 1;") (Demo.options "a.js" None None)).
  - reflexivity.
  - reflexivity.
Defined.
